(** * BiExporter: the Power BI export lifecycle

    A shallow embedding of [src/BiExporter.py]: the class [PowerBIExporter]
    with [post_export_request], [poll_export_request], [get_exported_file]
    and the retrying driver [export_power_bi_report].

    The program talks to a remote service and reads a clock.  Both are
    modelled by an explicit world: a clock, a counter of the effects
    performed so far, and the journal of those effects.  The remote service
    and the scheduler are an oracle indexed by that counter, so that every
    behaviour of the service (any sequence of answers, of any duration) is
    one oracle.  Exceptions are the left summand of the result.

    Clock readings, delays and the numbers of a response are integers, in
    seconds: the rounding of the floating-point clock is not modelled, its
    range is.  A string is a sequence of code points below 256.  The
    coroutines are run to completion one after the other, which is what
    [await] does inside one invocation. *)

From Stdlib Require Import ZArith Ascii String List Lia.
From Stdlib.Strings Require Import Byte.
From stdpp Require Import base numbers strings gmap list pretty.

Local Open Scope string_scope.
Local Open Scope list_scope.
Local Open Scope Z_scope.

(** ** Python values

    What [response.json()] hands to the program, and what the program puts
    into a request body: [None], booleans, integers, strings, lists and
    dictionaries.  A dictionary keeps its items in insertion order; its keys
    are strings.  Numbers and clock readings are integers (seconds). *)

#[warnings="-register-all"]
Inductive pyval : Type :=
  | PyNone
  | PyBool (b : bool)
  | PyInt (n : Z)
  | PyStr (s : string)
  | PyList (items : list pyval)
  | PyDict (items : list (string * pyval)).

Module Py.

(** [d[k]] on a dictionary given by its items. *)
Fixpoint assoc (k : string) (items : list (string * pyval)) : option pyval :=
  match items with
  | [] => None
  | (k', v) :: rest => if String.eqb k k' then Some v else assoc k rest
  end.

(** [a == s] for a string literal [s]: only a string equals a string. *)
Definition eq_str (a : pyval) (s : string) : bool :=
  match a with
  | PyStr s' => String.eqb s' s
  | _ => false
  end.

(** [a in [s1, s2, ...]] for a list of string literals. *)
Definition in_strs (a : pyval) (l : list string) : bool :=
  existsb (eq_str a) l.

Fixpoint is_prefix (p s : string) : bool :=
  match p, s with
  | EmptyString, _ => true
  | String a p', String b s' => Ascii.eqb a b && is_prefix p' s'
  | String _ _, EmptyString => false
  end.

Fixpoint is_substring (p s : string) : bool :=
  is_prefix p s ||
  match s with
  | EmptyString => false
  | String _ s' => is_substring p s'
  end.

Definition backslash : ascii := ascii_of_N 92.
Definition dquote : ascii := ascii_of_N 34.
Definition squote : ascii := ascii_of_N 39.

Definition hex_digit (n : N) : ascii :=
  match n with
  | 10 => "a" | 11 => "b" | 12 => "c" | 13 => "d" | 14 => "e" | 15 => "f"
  | _ => ascii_of_N (48 + n)
  end%N%char.

(** One character of [repr] of a string delimited by [q]: the code points
    that are not printable (below 32, from 127 to 160, and 173) are
    escaped. *)
Definition repr_char (q a : ascii) : string :=
  let n := N_of_ascii a in
  if Ascii.eqb a backslash then String backslash (String backslash EmptyString)
  else if Ascii.eqb a q then String backslash (String q EmptyString)
  else if N.eqb n 10 then String backslash "n"
  else if N.eqb n 13 then String backslash "r"
  else if N.eqb n 9 then String backslash "t"
  else if N.ltb n 32 || (N.leb 127 n && N.leb n 160) || N.eqb n 173
    then String backslash "x" +:+ String (hex_digit (n / 16)) (String (hex_digit (n mod 16)) EmptyString)
  else String a EmptyString.

Fixpoint repr_chars (q : ascii) (s : string) : string :=
  match s with
  | EmptyString => EmptyString
  | String a s' => repr_char q a +:+ repr_chars q s'
  end.

Fixpoint has_char (c : ascii) (s : string) : bool :=
  match s with
  | EmptyString => false
  | String a s' => Ascii.eqb a c || has_char c s'
  end.

(** [repr(s)]: single quotes, unless [s] holds a single quote and no
    double quote. *)
Definition repr_str (s : string) : string :=
  let q := if has_char squote s && negb (has_char dquote s)
           then dquote else squote in
  String q (repr_chars q s +:+ String q EmptyString).

Fixpoint repr (v : pyval) : string :=
  match v with
  | PyNone => "None"
  | PyBool true => "True"
  | PyBool false => "False"
  | PyInt n => pretty n
  | PyStr s => repr_str s
  | PyList items =>
      "[" +:+
      (fix go (l : list pyval) : string :=
         match l with
         | [] => ""
         | x :: l' =>
             match l' with
             | [] => repr x
             | _ :: _ => repr x +:+ ", " +:+ go l'
             end
         end) items +:+ "]"
  | PyDict items =>
      "{" +:+
      (fix go (l : list (string * pyval)) : string :=
         match l with
         | [] => ""
         | (k, x) :: l' =>
             match l' with
             | [] => repr_str k +:+ ": " +:+ repr x
             | _ :: _ => repr_str k +:+ ": " +:+ repr x +:+ ", " +:+ go l'
             end
         end) items +:+ "}"
  end.

(** [str(v)], which is what an f-string field [{v}] renders. *)
Definition str (v : pyval) : string :=
  match v with
  | PyStr s => s
  | _ => repr v
  end.

(** Truth value of an optional argument: [None] and the empty list or
    string are false. *)
Definition truthy_list {A} (o : option (list A)) : bool :=
  match o with
  | Some (_ :: _) => true
  | _ => false
  end.

Definition truthy_str (o : option string) : bool :=
  match o with
  | Some (String _ _) => true
  | _ => false
  end.

End Py.

(** ** Exceptions

    All of them derive from [Exception], so the handler of
    [export_power_bi_report] catches every one. *)

Inductive exn : Type :=
  | ClientResponseError (status : Z)   (* raise_for_status, status >= 400 *)
  | ClientConnectionError              (* no response: connection fault *)
  | TimeoutError                       (* no response: the timeout of the client *)
  | ContentTypeError                   (* response.json(): Content-Type that is not JSON *)
  | JSONDecodeError                    (* response.json(): body that is no JSON document *)
  | OverflowError                      (* asyncio.sleep: delay beyond the range of float *)
  | OtherError (class_name : string)   (* any other class derived from Exception *)
  | KeyError (key : string)
  | TypeError.

(** ** Enumerations *)

Inductive FileFormat : Type := PDF | PNG.

Definition FileFormat_value (f : FileFormat) : string :=
  match f with
  | PDF => "PDF"
  | PNG => "PNG"
  end.

Inductive ExportState : Type := SUCCEEDED | FAILED.

Definition ExportState_value (s : ExportState) : string :=
  match s with
  | SUCCEEDED => "Succeeded"
  | FAILED => "Failed"
  end.

(** ** The world *)

(** What the program prints. *)
Inductive printed : Type :=
  | PrintedUrl (url : string)
  | PrintedError (attempt : Z) (e : exn).

Inductive action : Type :=
  | Post (url : string) (hdrs : gmap string string) (data : gmap string pyval)
  | Get (url : string) (hdrs : gmap string string)
  | Sleep (delay : Z)
  | Print (p : printed).

(** An effect, with the value of the effect counter and the clock reading
    when it started. *)
Record event : Type := Ev { ev_step : nat; ev_time : Z; ev_action : action }.

(** How a request of the HTTP client ends.  [Fault e]: the client raises
    [e] and hands over no response (a connection fault, its timeout, an
    address it refuses).  [Http status json content]: the response the
    client hands over, the last one when it has followed redirects; [json]
    is what [response.json()] makes of it, the decoded body or the exception
    raised ([ContentTypeError] when the Content-Type is not JSON,
    [JSONDecodeError] when the body is no JSON document); [content] is what
    [response.read()] returns. *)
Inductive outcome : Type :=
  | Fault (e : exn)
  | Http (status : Z) (json : exn + pyval) (content : list byte).

Record response : Type := { elapsed : N; result_of : outcome }.

(** The remote service and the scheduler: the answer to the request issued
    as effect number [n] and the time it takes, and by how much the sleep
    issued as effect number [n] oversleeps. *)
Record Env : Type := { respond : nat -> response; oversleep : nat -> N }.

Record World : Type := { now : Z; step : nat; journal : list event }.

Definition M (A : Type) : Type := World -> (exn + A) * World.

Definition ret {A} (a : A) : M A := fun w => (inr a, w).
Definition raise {A} (e : exn) : M A := fun w => (inl e, w).
Definition bind {A B} (m : M A) (k : A -> M B) : M B :=
  fun w =>
    match m w with
    | (inl e, w') => (inl e, w')
    | (inr a, w') => k a w'
    end.

Notation "'let*' x ':=' m 'in' k" := (bind m (fun x => k))
  (at level 10, x name, m at level 99, k at level 200).
Notation "m ';;' k" := (bind m (fun _ => k))
  (at level 100, k at level 200, right associativity).

Definition record (a : action) (w : World) : list event :=
  journal w ++ [Ev (step w) (now w) a].

(** The world after a [print]: no time passes and no effect is counted. *)
Definition wrote (p : printed) (w : World) : World :=
  {| now := now w; step := step w; journal := record (Print p) w |}.

Module Py_ops.

(** [v[k]] for a string key [k]. *)
Definition getitem (v : pyval) (k : string) : M pyval :=
  match v with
  | PyDict items =>
      match Py.assoc k items with
      | Some x => ret x
      | None => raise (KeyError k)
      end
  | _ => raise TypeError
  end.

(** [k in v] for a string [k]. *)
Definition contains (k : string) (v : pyval) : M bool :=
  match v with
  | PyDict items => ret (bool_decide (is_Some (Py.assoc k items)))
  | PyList items => ret (existsb (fun x => Py.eq_str x k) items)
  | PyStr s => ret (Py.is_substring k s)
  | _ => raise TypeError
  end.

End Py_ops.

(** The first integer that has no float: halfway between the largest float,
    [2^1024 - 2^971], and [2^1024]. *)
Definition float_limit : Z := 2 ^ 1024 - 2 ^ 970.

(** ** class PowerBIExporter *)

Record PowerBIExporter : Type := {
  access_token : string;
  base_url : string;
  headers : gmap string string
}.

Definition default_base_url : string := "https://api.powerbi.com/v1.0/myorg".

(** [__init__] *)
Definition init (access_token base_url : string) : PowerBIExporter :=
  {| access_token := access_token;
     base_url := base_url;
     headers := <["Content-Type" := "application/json"]>
                  (<["Authorization" := "Bearer " +:+ access_token]> ∅) |}.

(** The exported file, [{'content': ..., 'filename': ...}]. *)
Record exported : Type := { content : list byte; filename : string }.

(** How one turn of the attempt loop ends when no exception escapes it: by
    [return], or by going on to the next value of [attempt] ([continue], or
    the end of the body). *)
Inductive flow : Type :=
  | Returned (v : option exported)
  | NextAttempt.

(** [list_reports] calls the method [get] of the decoded body.  On a value
    that has no such method Python raises [AttributeError], which no
    other method of the class can raise. *)
Inductive listing_exn : Type :=
  | Raised (e : exn)
  | AttributeError.

(** [v.get(k, default)] *)
Definition dict_get (v : pyval) (k : string) (default : pyval) : listing_exn + pyval :=
  match v with
  | PyDict items =>
      match Py.assoc k items with
      | Some x => inr x
      | None => inr default
      end
  | _ => inl AttributeError
  end.

(** ** The client library: one session per request *)

Section Exporter.

Variable env : Env.

(** The world once the request issued as effect number [step w] is
    answered: the request is journalled at the clock reading of its start,
    and the clock has advanced by the time the answer took. *)
Definition answered (a : action) (w : World) : World :=
  {| now := now w + Z.of_N (elapsed (respond env (step w)));
     step := S (step w);
     journal := record a w |}.

(** A request of a session; a fault of the client is an exception. *)
Definition request (a : action) : M outcome :=
  fun w =>
    match result_of (respond env (step w)) with
    | Fault e => (inl e, answered a w)
    | o => (inr o, answered a w)
    end.

(** [response.raise_for_status()]: an exception from status 400 on. *)
Definition raise_for_status (o : outcome) : M unit :=
  match o with
  | Http status _ _ =>
      if 400 <=? status then raise (ClientResponseError status) else ret tt
  | Fault e => raise e
  end.

(** [await response.json()] *)
Definition response_json (o : outcome) : M pyval :=
  match o with
  | Http _ (inr v) _ => ret v
  | Http _ (inl e) _ => raise e
  | Fault e => raise e
  end.

(** [await response.read()] *)
Definition response_read (o : outcome) : M (list byte) :=
  match o with
  | Http _ _ content => ret content
  | Fault e => raise e
  end.

(** The world after [await asyncio.sleep(delay)]: control comes back no
    earlier than [delay] later; a delay that is not positive only yields. *)
Definition slept (delay : Z) (w : World) : World :=
  {| now := now w + Z.max 0 delay + Z.of_N (oversleep env (step w));
     step := S (step w);
     journal := record (Sleep delay) w |}.

(** [await asyncio.sleep(delay)] for an integer: the delay is added to the
    clock reading of the event loop, a float, which raises [OverflowError]
    when the integer is beyond the range of float; nothing is slept then. *)
Definition asyncio_sleep (delay : Z) : M unit :=
  if float_limit <=? delay then raise OverflowError
  else fun w => (inr tt, slept delay w).

(** [await asyncio.sleep(v)] for a value from a response: only numbers
    (and booleans, which are numbers) compare with 0. *)
Definition sleep_for (v : pyval) : M unit :=
  match v with
  | PyInt d => asyncio_sleep d
  | PyBool b => asyncio_sleep (if b then 1 else 0)
  | _ => raise TypeError
  end.

Definition print (p : printed) : M unit :=
  fun w => (inr tt, wrote p w).

(** ** The methods of PowerBIExporter *)

Variable self : PowerBIExporter.

(** *** post_export_request *)

Definition export_to_url (report_id group_id : string) : string :=
  base_url self +:+ "/groups/" +:+ group_id +:+ "/reports/" +:+ report_id +:+ "/ExportTo".

(** The body: [format] always, [pageNames] and [urlFilter] when the
    argument is truthy. *)
Definition export_data (file_format : FileFormat)
    (page_names : option (list string)) (url_filter : option string)
    : gmap string pyval :=
  let data : gmap string pyval := {[ "format" := PyStr (FileFormat_value file_format) ]} in
  let data :=
    if Py.truthy_list page_names
    then <["pageNames" := PyList (PyStr <$> default [] page_names)]> data
    else data in
  let data :=
    if Py.truthy_str url_filter
    then <["urlFilter" := PyStr (default "" url_filter)]> data
    else data in
  data.

Definition post_export_request (report_id group_id : string)
    (file_format : FileFormat) (page_names : option (list string))
    (url_filter : option string) : M pyval :=
  let url := export_to_url report_id group_id in
  print (PrintedUrl url) ;;
  let data := export_data file_format page_names url_filter in
  let* response := request (Post url (headers self) data) in
  raise_for_status response ;;
  let* result := response_json response in
  Py_ops.getitem result "id".

(** *** poll_export_request *)

Definition export_status_url (report_id group_id : string) (export_id : pyval) : string :=
  base_url self +:+ "/groups/" +:+ group_id +:+ "/reports/" +:+ report_id
    +:+ "/exports/" +:+ Py.str export_id.

Definition terminal_states : list string :=
  [ExportState_value SUCCEEDED; ExportState_value FAILED].

(** The two [async with] blocks of one turn of the loop: [Some result]
    when the turn executes [return result], [None] when it falls through
    to the sleep. *)
Definition poll_once (url : string) : M (option pyval) :=
  let* response := request (Get url (headers self)) in
  raise_for_status response ;;
  let* result := response_json response in
  let* status := Py_ops.getitem result "status" in
  if Py.in_strs status terminal_states then ret (Some result) else ret None.

(** The [while] loop, at most [fuel] tests of its condition; [None] when
    the fuel does not suffice. *)
Fixpoint poll_loop (fuel : nat) (url : string)
    (start_time polling_timeout_minutes : Z) (w : World)
    : option ((exn + pyval) * World) :=
  match fuel with
  | O => None
  | S fuel' =>
      if now w - start_time <? polling_timeout_minutes * 60 then
        match poll_once url w with
        | (inl e, w1) => Some (inl e, w1)
        | (inr (Some result), w1) => Some (inr result, w1)
        | (inr None, w1) =>
            poll_loop fuel' url start_time polling_timeout_minutes (slept 5 w1)
        end
      else Some (inr PyNone, w)
  end.

(** Every turn sleeps 5 seconds, so the condition is tested at most once
    per second of the timeout, and once more: this fuel always suffices
    ([poll_loop_total], [poll_export_request_eq]). *)
Definition poll_fuel (polling_timeout_minutes : Z) : nat :=
  S (Z.to_nat (polling_timeout_minutes * 60)).

Definition poll_export_request (report_id group_id : string)
    (export_id : pyval) (polling_timeout_minutes : Z) : M pyval :=
  fun w =>
    let url := export_status_url report_id group_id export_id in
    let start_time := now w in
    match poll_loop (poll_fuel polling_timeout_minutes) url start_time
            polling_timeout_minutes w with
    | Some r => r
    | None => (inr PyNone, w)
    end.

(** *** get_exported_file *)

(** [session.get(url, ...)] for a value taken from a response: the client
    takes a string. *)
Definition session_get (url : pyval) : M outcome :=
  match url with
  | PyStr u => request (Get u (headers self))
  | _ => raise TypeError
  end.

Definition get_exported_file (report_id group_id : string) (export : pyval)
    : M exported :=
  let* url := Py_ops.getitem export "resourceLocation" in
  let* response := session_get url in
  raise_for_status response ;;
  let* content := response_read response in
  let* report_name := Py_ops.getitem export "reportName" in
  let* extension := Py_ops.getitem export "resourceFileExtension" in
  ret {| content := content;
         filename := Py.str report_name +:+ "." +:+ Py.str extension |}.

(** *** export_power_bi_report *)

Section Call.

Variables (report_id group_id : string) (file_format : FileFormat)
          (polling_timeout_minutes : Z)
          (page_names : option (list string)) (url_filter : option string).

Definition max_retries : Z := 3.

(** What the attempt loop does with the outcome of the poll (the two
    [if] statements of the [try] block). *)
Definition interpret (export : pyval) : M flow :=
  let* failed :=
    match export with
    | PyNone => ret true
    | _ => let* status := Py_ops.getitem export "status" in
           ret (Py.eq_str status (ExportState_value FAILED))
    end in
  if (failed : bool) then
    let* retry := Py_ops.contains "retryAfter" export in
    if (retry : bool) then
      let* delay := Py_ops.getitem export "retryAfter" in
      sleep_for delay ;;
      ret NextAttempt
    else ret (Returned None)
  else
    let* status := Py_ops.getitem export "status" in
    if Py.eq_str status (ExportState_value SUCCEEDED) then
      let* file := get_exported_file report_id group_id export in
      ret (Returned (Some file))
    else ret NextAttempt.

(** The [try] block. *)
Definition attempt_body : M flow :=
  let* export_id :=
    post_export_request report_id group_id file_format page_names url_filter in
  let* export :=
    poll_export_request report_id group_id export_id polling_timeout_minutes in
  interpret export.

(** The [try] statement with its handler. *)
Definition export_attempt (attempt : Z) : M flow :=
  fun w =>
    match attempt_body w with
    | (inl e, w1) =>
        (print (PrintedError (attempt + 1) e) ;;
         if attempt =? max_retries - 1 then raise e else ret NextAttempt) w1
    | (inr f, w1) => (inr f, w1)
    end.

(** The [for] loop over the values of [attempt] still to come, and the
    [return None] after it. *)
Fixpoint for_attempts (attempts : list Z) : M (option exported) :=
  match attempts with
  | [] => ret None
  | attempt :: rest =>
      let* f := export_attempt attempt in
      match f with
      | Returned v => ret v
      | NextAttempt => for_attempts rest
      end
  end.

Definition export_power_bi_report : M (option exported) :=
  for_attempts (seqZ 0 max_retries).

End Call.

(** *** list_reports *)

Definition reports_url (group_id : string) : string :=
  base_url self +:+ "/groups/" +:+ group_id +:+ "/reports".

Definition list_reports (group_id : string)
    : World -> (listing_exn + pyval) * World :=
  fun w =>
    match (let* response := request (Get (reports_url group_id) (headers self)) in
           raise_for_status response ;;
           response_json response) w with
    | (inl e, w') => (inl (Raised e), w')
    | (inr result, w') => (dict_get result "value" (PyList []), w')
    end.

End Exporter.

(** ** Observations *)

Definition is_post (e : event) : bool :=
  match ev_action e with
  | Post _ _ _ => true
  | _ => false
  end.

(** The number of submissions in a journal. *)
Definition submissions (j : list event) : nat := length (List.filter is_post j).

(** From [w] to [w'] the journal has only grown, and by no submission. *)
Definition quiet (w w' : World) : Prop :=
  exists evs, journal w' = journal w ++ evs /\ submissions evs = 0%nat.

(** A computation that makes no submission. *)
Definition submits_nothing {A} (m : M A) : Prop :=
  forall w r w', m w = (r, w') -> quiet w w'.

(** A terminal snapshot: a dictionary whose [status] is exactly
    ["Succeeded"] or ["Failed"]. *)
Definition terminal (v : pyval) : Prop :=
  exists items, v = PyDict items /\
    (Py.assoc "status" items = Some (PyStr "Succeeded") \/
     Py.assoc "status" items = Some (PyStr "Failed")).

(** The values of [attempt] from [attempt] to the end of
    [range(max_retries)]. *)
Definition attempts_from (attempt : Z) : list Z :=
  seqZ attempt (max_retries - attempt).

(** What a submission makes of its answer: the [id] of the decoded body,
    or an exception. *)
Definition handle_of (o : outcome) : exn + pyval :=
  match o with
  | Fault e => inl e
  | Http status json _ =>
      if 400 <=? status then inl (ClientResponseError status)
      else match json with
           | inl e => inl e
           | inr (PyDict items) =>
               match Py.assoc "id" items with
               | Some handle => inr handle
               | None => inl (KeyError "id")
               end
           | inr _ => inl TypeError
           end
  end.

(** What the fetch of one turn of the poll loop makes of an answer: the
    decoded body when it is a dictionary with a [status], an exception
    otherwise. *)
Definition snapshot_of (o : outcome) : exn + pyval :=
  match o with
  | Fault e => inl e
  | Http status json _ =>
      if 400 <=? status then inl (ClientResponseError status)
      else match json with
           | inl e => inl e
           | inr (PyDict items) =>
               match Py.assoc "status" items with
               | Some _ => inr (PyDict items)
               | None => inl (KeyError "status")
               end
           | inr _ => inl TypeError
           end
  end.

(** The journal and the result of a run of the poll loop entered at clock
    reading [t] as effect number [n]: every fetch follows a test of the
    elapsed time that passed; a terminal snapshot ends the run; any other
    snapshot is followed by a sleep of 5 seconds; the run ends without a
    snapshot at the first test that fails. *)
Inductive poll_shape (env : Env) (hdrs : gmap string string) (url : string)
    (start_time minutes : Z) : Z -> nat -> list event -> exn + pyval -> Prop :=
  | shape_timeout t n :
      ~ (t - start_time < minutes * 60) ->
      poll_shape env hdrs url start_time minutes t n [] (inr PyNone)
  | shape_return t n result :
      t - start_time < minutes * 60 ->
      snapshot_of (result_of (respond env n)) = inr result ->
      terminal result ->
      poll_shape env hdrs url start_time minutes t n
        [Ev n t (Get url hdrs)] (inr result)
  | shape_raise t n e :
      t - start_time < minutes * 60 ->
      snapshot_of (result_of (respond env n)) = inl e ->
      poll_shape env hdrs url start_time minutes t n
        [Ev n t (Get url hdrs)] (inl e)
  | shape_sleep t n result evs r :
      t - start_time < minutes * 60 ->
      snapshot_of (result_of (respond env n)) = inr result ->
      ~ terminal result ->
      poll_shape env hdrs url start_time minutes
        (t + Z.of_N (elapsed (respond env n)) + 5 + Z.of_N (oversleep env (S n)))
        (S (S n)) evs r ->
      poll_shape env hdrs url start_time minutes t n
        (Ev n t (Get url hdrs)
           :: Ev (S n) (t + Z.of_N (elapsed (respond env n))) (Sleep 5)
           :: evs) r.

(** ** The error taxonomy of the specification

    The specification's [submit]: [TransportError] on connection or timeout
    faults, [AuthError] on 401 and 403, [ApiError] with status and body on
    other answers outside 2xx; on 2xx the [id] of the body is the handle.
    It says nothing on a 2xx answer without an [id]. *)

Module Taxonomy.

Inductive submit_error : Type :=
  | TransportError
  | AuthError
  | ApiError (status : Z) (body : exn + pyval).

Definition submit (o : outcome) : option (submit_error + pyval) :=
  match o with
  | Fault _ => Some (inl TransportError)
  | Http status json _ =>
      if (200 <=? status) && (status <? 300) then
        match json with
        | inr (PyDict items) => inr <$> Py.assoc "id" items
        | _ => None
        end
      else if (status =? 401) || (status =? 403) then Some (inl AuthError)
      else Some (inl (ApiError status json))
  end.

(** The claim: under some reading of the program's exceptions as errors of
    the taxonomy, every submission ends as the specification says. *)
Definition submit_claim : Prop :=
  exists classify : exn -> submit_error,
    forall env self report_id group_id file_format page_names url_filter w r,
      submit (result_of (respond env (step w))) = Some r ->
      match fst (post_export_request env self report_id group_id file_format
                   page_names url_filter w) with
      | inl e => inl (classify e)
      | inr handle => inr handle
      end = r.

End Taxonomy.

(** ** Further observations *)

Definition is_get (e : event) : bool :=
  match ev_action e with
  | Get _ _ => true
  | _ => false
  end.

(** The number of fetches (of a status, of a file, of the reports) in a
    journal. *)
Definition fetches (j : list event) : nat := length (List.filter is_get j).

(** A request that carries the headers [hdrs]; what is no request carries
    none. *)
Definition authorized (hdrs : gmap string string) (e : event) : Prop :=
  match ev_action e with
  | Post _ h _ => h = hdrs
  | Get _ h => h = hdrs
  | _ => True
  end.

(** The world in which the turn of the attempt loop for [attempt] starts in
    an invocation started in [w0]: the turn for 0 starts in [w0], and a
    turn follows, within [range(max_retries)], one that has ended without
    a return and without an exception that escapes. *)
Inductive attempt_starts (env : Env) (self : PowerBIExporter)
    (report_id group_id : string) (file_format : FileFormat)
    (polling_timeout_minutes : Z) (page_names : option (list string))
    (url_filter : option string) (w0 : World) : Z -> World -> Prop :=
  | starts_first :
      attempt_starts env self report_id group_id file_format
        polling_timeout_minutes page_names url_filter w0 0 w0
  | starts_next attempt w w' :
      attempt_starts env self report_id group_id file_format
        polling_timeout_minutes page_names url_filter w0 attempt w ->
      attempt + 1 < max_retries ->
      export_attempt env self report_id group_id file_format
        polling_timeout_minutes page_names url_filter attempt w
        = (inr NextAttempt, w') ->
      attempt_starts env self report_id group_id file_format
        polling_timeout_minutes page_names url_filter w0 (attempt + 1) w'.

(** An effect that an invocation for the submission [url], [data] may
    have: that very submission, a fetch, a sleep or a print, every request
    with the headers [hdrs]. *)
Definition expected (hdrs : gmap string string) (url : string)
    (data : gmap string pyval) (e : event) : Prop :=
  match ev_action e with
  | Post u h d => u = url /\ h = hdrs /\ d = data
  | Get _ h => h = hdrs
  | _ => True
  end.

(** ** Scenarios *)

Module Scenario.

Definition me : PowerBIExporter := init "token" default_base_url.

Definition world0 : World := {| now := 1000; step := 0; journal := [] |}.

Definition ok (elapsed : N) (v : pyval) : response :=
  {| elapsed := elapsed; result_of := Http 200 (inr v) [] |}.

Definition fault : response :=
  {| elapsed := 0; result_of := Fault ClientConnectionError |}.

Definition punctual : nat -> N := fun _ => 0%N.

(** The scenario of the specification: the submission yields E1, the
    first poll is pending, the second succeeds, the file is fetched. *)
Definition sales_snapshot : pyval :=
  PyDict [("status", PyStr "Succeeded"); ("resourceLocation", PyStr "L");
          ("reportName", PyStr "Sales"); ("resourceFileExtension", PyStr "png")].

Definition sales : Env :=
  {| respond := fun n =>
       match n with
       | 0%nat => ok 1 (PyDict [("id", PyStr "E1")])
       | 1%nat => ok 1 (PyDict [("status", PyStr "Pending")])
       | 3%nat => ok 1 sales_snapshot
       | 4%nat => {| elapsed := 2;
                   result_of := Http 200 (inl ContentTypeError)
                                  ["P"%byte; "N"%byte; "G"%byte] |}
       | _ => fault
       end;
     oversleep := punctual |}.

(** A service that accepts every submission and never finishes. *)
Definition stalled : Env :=
  {| respond := fun _ => ok 0 (PyDict [("id", PyStr "E1"); ("status", PyStr "Running")]);
     oversleep := punctual |}.

(** A service that fails every export and asks to come back 7 seconds
    later. *)
Definition busy_snapshot : pyval :=
  PyDict [("id", PyStr "E1"); ("status", PyStr "Failed"); ("retryAfter", PyInt 7)].

Definition busy : Env :=
  {| respond := fun _ => ok 1 busy_snapshot; oversleep := fun _ => 1%N |}.

(** A service that fails the export for good. *)
Definition broken_snapshot : pyval :=
  PyDict [("id", PyStr "E1"); ("status", PyStr "Failed")].

Definition broken : Env :=
  {| respond := fun _ => ok 1 broken_snapshot; oversleep := punctual |}.

(** A service that is unreachable. *)
Definition unreachable : Env :=
  {| respond := fun _ => fault; oversleep := punctual |}.

(** Answers to a submission, by status. *)
Definition answering (status : Z) (body : pyval) : Env :=
  {| respond := fun _ => {| elapsed := 1; result_of := Http status (inr body) [] |};
     oversleep := punctual |}.

(** The world after the submission of the first attempt, and after its
    poll, for report R1 of workspace W1 exported as PNG. *)
Definition submitted (env : Env) : World :=
  snd (post_export_request env me "R1" "W1" PNG None None world0).

Definition polled (env : Env) (minutes : Z) : World :=
  snd (poll_export_request env me "R1" "W1" (PyStr "E1") minutes (submitted env)).

Definition is_get_after (deadline : Z) (e : event) : bool :=
  match ev_action e with
  | Get _ _ => deadline <=? ev_time e
  | _ => false
  end.

End Scenario.

(** ** Further scenarios *)

Module Cases.

Import Scenario.

(** The answer to a listing: one report. *)
Definition one_report : pyval :=
  PyDict [("value", PyList [PyDict [("id", PyStr "r1"); ("name", PyStr "Sales")]])].

(** A service that fails every export and gives its [retryAfter] as a
    text. *)
Definition odd_snapshot : pyval :=
  PyDict [("id", PyStr "E1"); ("status", PyStr "Failed"); ("retryAfter", PyStr "PT30S")].

Definition odd : Env :=
  {| respond := fun _ => ok 1 odd_snapshot; oversleep := punctual |}.

(** A Succeeded snapshot that names its file and not the report. *)
Definition nameless : list (string * pyval) :=
  [("status", PyStr "Succeeded"); ("resourceLocation", PyStr "L")].

(** A service that answers 200 as JSON with a body that is no JSON
    document. *)
Definition garbled : Env :=
  {| respond := fun _ => {| elapsed := 1; result_of := Http 200 (inl JSONDecodeError) [] |};
     oversleep := punctual |}.

(** A service that never answers within the timeout of the client. *)
Definition slow : Env :=
  {| respond := fun _ => {| elapsed := 300; result_of := Fault TimeoutError |};
     oversleep := punctual |}.

(** A service that fails every export and asks to come back after
    [2^1024] seconds, which is beyond the range of float. *)
Definition eternal_snapshot : pyval :=
  PyDict [("id", PyStr "E1"); ("status", PyStr "Failed"); ("retryAfter", PyInt (2 ^ 1024))].

Definition eternal : Env :=
  {| respond := fun _ => ok 1 eternal_snapshot; oversleep := punctual |}.

End Cases.

(** * Properties *)

(** Unfolding the monad. *)
Ltac run :=
  unfold bind, ret, raise, print, asyncio_sleep, request,
    Py_ops.getitem, Py_ops.contains in *; simpl in *.

Arguments Py.in_strs : simpl never.
Arguments float_limit : simpl never.

Section Properties.

Variable env : Env.
Variable self : PowerBIExporter.

(** ** Submission *)

Lemma post_export_request_eq report_id group_id file_format page_names url_filter w :
  let url := export_to_url self report_id group_id in
  post_export_request env self report_id group_id file_format page_names url_filter w
  = (handle_of (result_of (respond env (step w))),
     answered env
       (Post url (headers self) (export_data file_format page_names url_filter))
       (wrote (PrintedUrl url) w)).
Proof.
  intros url. unfold post_export_request, handle_of, raise_for_status, response_json.
  run. fold url.
  destruct (result_of (respond env (step w))) as [e|status json content]; [done|].
  simpl. destruct (400 <=? status); [done|].
  destruct json as [e|[| | | | |items]]; try done.
  simpl. by destruct (Py.assoc "id" items).
Qed.

(** C8, as the program has it.  When the response that the client hands
    over has a status below 400 and [response.json()] decodes its body to a
    dictionary, the submission returns the [id] of that dictionary as the
    handle.  When the status is 400 or above it raises the one response
    error of the client, which carries the status and no body, for 401 and
    403 as for any other status.  When the status is below 400 and
    [response.json()] raises (the content type error, the decode error),
    that exception is raised.  When the client hands over no response, the
    exception of the client is raised as it is: the connection error for a
    connection fault, the timeout error for a timeout. *)
Theorem C8_submit_outcome report_id group_id file_format page_names url_filter w :
  let answer := result_of (respond env (step w)) in
  let outcome :=
    fst (post_export_request env self report_id group_id file_format
           page_names url_filter w) in
  (forall status items content handle,
     answer = Http status (inr (PyDict items)) content ->
     status < 400 ->
     Py.assoc "id" items = Some handle ->
     outcome = inr handle) /\
  (forall status json content,
     answer = Http status json content ->
     400 <= status ->
     outcome = inl (ClientResponseError status)) /\
  (forall status e content,
     answer = Http status (inl e) content ->
     status < 400 ->
     outcome = inl e) /\
  (forall e, answer = Fault e -> outcome = inl e).
Proof.
  intros answer outcome. subst answer outcome.
  rewrite post_export_request_eq. simpl. unfold handle_of.
  split; [|split; [|split]].
  - intros status items content handle -> Hok ->.
    by destruct (Z.leb_spec 400 status); [lia|].
  - intros status json content -> Hbad.
    by destruct (Z.leb_spec 400 status); [|lia].
  - intros status e content -> Hok.
    by destruct (Z.leb_spec 400 status); [lia|].
  - by intros e ->.
Qed.

(** C10: the body of every submission holds [format]; it holds
    [pageNames] exactly when [page_names] is truthy and [urlFilter]
    exactly when [url_filter] is truthy; an empty list of page names
    gives the body that no list gives. *)
Theorem C10_request_body report_id group_id file_format page_names url_filter w :
  let url := export_to_url self report_id group_id in
  let data := export_data file_format page_names url_filter in
  journal (snd (post_export_request env self report_id group_id file_format
                  page_names url_filter w))
    = journal w ++ [Ev (step w) (now w) (Print (PrintedUrl url));
                    Ev (step w) (now w) (Post url (headers self) data)] /\
  data !! "format" = Some (PyStr (FileFormat_value file_format)) /\
  (is_Some (data !! "pageNames") <-> Py.truthy_list page_names = true) /\
  (is_Some (data !! "urlFilter") <-> Py.truthy_str url_filter = true) /\
  export_data file_format (Some []) url_filter
    = export_data file_format None url_filter.
Proof.
  intros url data. split; [|split; [|split; [|split]]].
  - rewrite post_export_request_eq. unfold answered, wrote, record. simpl.
    by rewrite <- app_assoc.
  - subst data. unfold export_data.
    repeat case_match; by simplify_map_eq.
  - subst data. unfold export_data.
    destruct (Py.truthy_list page_names), (Py.truthy_str url_filter);
      simplify_map_eq; split; (done || by intros [? [=]] || eauto).
  - subst data. unfold export_data.
    destruct (Py.truthy_list page_names), (Py.truthy_str url_filter);
      simplify_map_eq; split; (done || by intros [? [=]] || eauto).
  - reflexivity.
Qed.

(** ** Polling *)

Lemma in_terminal_states (s : pyval) :
  Py.in_strs s terminal_states = true <->
  s = PyStr "Succeeded" \/ s = PyStr "Failed".
Proof.
  unfold Py.in_strs, terminal_states. simpl. rewrite !orb_true_iff.
  destruct s; simpl; try (split; [intros [|[|]]; done | intros [|]; done]).
  rewrite !String.eqb_eq. split.
  - intros [->|[->|]]; [by left|by right|done].
  - intros [[= ->]|[= ->]]; auto.
Qed.

Lemma snapshot_of_dict o result :
  snapshot_of o = inr result ->
  exists items s, result = PyDict items /\ Py.assoc "status" items = Some s.
Proof.
  unfold snapshot_of. intros H. repeat case_match; simplify_eq. eauto.
Qed.

Lemma terminal_dict items s :
  Py.assoc "status" items = Some s ->
  terminal (PyDict items) <-> Py.in_strs s terminal_states = true.
Proof.
  intros Hs. rewrite in_terminal_states. unfold terminal. split.
  - intros (items' & [= <-] & H). rewrite Hs in H.
    destruct H as [[= ->]|[= ->]]; auto.
  - intros [->| ->]; eauto.
Qed.

(** One turn of the loop: the fetch is journalled, and the turn returns
    exactly when the snapshot is terminal. *)
Lemma poll_once_eq url w :
  poll_once env self url w
  = (match snapshot_of (result_of (respond env (step w))) with
     | inl e => inl e
     | inr result =>
         inr (match result with
              | PyDict items =>
                  match Py.assoc "status" items with
                  | Some s => if Py.in_strs s terminal_states then Some result else None
                  | None => None
                  end
              | _ => None
              end)
     end,
     answered env (Get url (headers self)) w).
Proof.
  unfold poll_once, snapshot_of, raise_for_status, response_json. run.
  destruct (result_of (respond env (step w))) as [fault|status json content]; [done|].
  simpl. destruct (400 <=? status); [done|].
  destruct json as [e|[| | | | |items]]; try done.
  simpl. destruct (Py.assoc "status" items) as [s|] eqn:Hs; simpl; rewrite ?Hs; [|done].
  by destruct (Py.in_strs s terminal_states).
Qed.

Lemma poll_loop_shape url start_time minutes fuel :
  forall w r w',
    poll_loop env self fuel url start_time minutes w = Some (r, w') ->
    exists evs,
      journal w' = journal w ++ evs /\
      poll_shape env (headers self) url start_time minutes (now w) (step w) evs r.
Proof.
  induction fuel as [|fuel IH]; intros w r w' H; [done|].
  simpl in H. destruct (Z.ltb_spec (now w - start_time) (minutes * 60)) as [Hlt|Hge].
  - rewrite poll_once_eq in H.
    destruct (snapshot_of (result_of (respond env (step w)))) as [e|result] eqn:Hsnap.
    + simplify_eq. eexists. split; [reflexivity|]. by apply shape_raise.
    + destruct (snapshot_of_dict _ _ Hsnap) as (items & s & -> & Hs).
      rewrite Hs in H. pose proof (terminal_dict _ _ Hs) as Hterm.
      destruct (Py.in_strs s terminal_states).
      * simplify_eq. eexists. split; [reflexivity|].
        apply shape_return; [done|done|]. by apply Hterm.
      * apply IH in H as (evs & Hj & Hshape).
        eexists. split.
        { rewrite Hj. unfold slept, answered, record. simpl.
          rewrite <- !app_assoc. reflexivity. }
        eapply shape_sleep; eauto. intros Ht. by apply Hterm in Ht.
  - simplify_eq. exists []. split; [by rewrite app_nil_r|]. apply shape_timeout. lia.
Qed.

(** The loop ends: each turn that does not return moves the clock by at
    least 5 seconds. *)
Lemma poll_loop_total url start_time minutes fuel :
  forall w,
    (Z.to_nat (start_time + minutes * 60 - now w) < fuel)%nat ->
    is_Some (poll_loop env self fuel url start_time minutes w).
Proof.
  induction fuel as [|fuel IH]; intros w Hfuel; [lia|].
  simpl. destruct (Z.ltb_spec (now w - start_time) (minutes * 60)) as [Hlt|Hge]; [|done].
  rewrite poll_once_eq.
  destruct (snapshot_of (result_of (respond env (step w)))) as [e|result]; [done|].
  repeat case_match; try done; apply IH; simpl; lia.
Qed.

Lemma poll_export_request_eq report_id group_id export_id minutes w :
  exists r,
    poll_loop env self (poll_fuel minutes)
      (export_status_url self report_id group_id export_id) (now w) minutes w = Some r /\
    poll_export_request env self report_id group_id export_id minutes w = r.
Proof.
  destruct (poll_loop_total (export_status_url self report_id group_id export_id)
              (now w) minutes (poll_fuel minutes) w) as [r Hr].
  { unfold poll_fuel. lia. }
  exists r. split; [done|]. unfold poll_export_request. by rewrite Hr.
Qed.

Lemma poll_shape_result hdrs url start_time minutes t n evs v :
  poll_shape env hdrs url start_time minutes t n evs (inr v) ->
  v = PyNone \/ terminal v.
Proof.
  intros H. remember (inr v) as r eqn:Hr.
  induction H; simplify_eq; auto.
Qed.

Lemma poll_shape_quiet hdrs url start_time minutes t n evs r :
  poll_shape env hdrs url start_time minutes t n evs r ->
  submissions evs = 0%nat.
Proof. induction 1; done. Qed.

Lemma poll_export_request_shape report_id group_id export_id minutes w :
  let run := poll_export_request env self report_id group_id export_id minutes w in
  exists evs,
    journal (snd run) = journal w ++ evs /\
    poll_shape env (headers self)
      (export_status_url self report_id group_id export_id)
      (now w) minutes (now w) (step w) evs (fst run).
Proof.
  intros run. subst run.
  destruct (poll_export_request_eq report_id group_id export_id minutes w)
    as ([r w'] & Hloop & ->).
  by apply poll_loop_shape in Hloop.
Qed.

Lemma poll_export_request_quiet report_id group_id export_id minutes w r w' :
  poll_export_request env self report_id group_id export_id minutes w = (r, w') ->
  quiet w w'.
Proof.
  intros H.
  destruct (poll_export_request_shape report_id group_id export_id minutes w)
    as (evs & Hj & Hshape).
  rewrite H in Hj, Hshape. exists evs. split; [done|].
  eapply poll_shape_quiet, Hshape.
Qed.

(** C6: in every turn of the poll loop the elapsed time is tested against
    the timeout before the status is fetched; a fetch that yields a
    terminal snapshot (Succeeded or Failed) ends the loop with that
    snapshot; a snapshot that is not terminal is followed by a sleep of 5
    seconds before the next turn.  The journal of every run of
    [poll_export_request] has the shape [poll_shape], which says so. *)
Theorem C6_poll_loop_discipline report_id group_id export_id minutes w :
  exists evs,
    journal (snd (poll_export_request env self report_id group_id export_id minutes w))
      = journal w ++ evs /\
    poll_shape env (headers self)
      (export_status_url self report_id group_id export_id)
      (now w) minutes (now w) (step w) evs
      (fst (poll_export_request env self report_id group_id export_id minutes w)).
Proof. apply poll_export_request_shape. Qed.

(** ** The outcome of the poll, interpreted *)

Section Attempts.

Variables (report_id group_id : string) (file_format : FileFormat)
          (polling_timeout_minutes : Z)
          (page_names : option (list string)) (url_filter : option string).

Local Abbreviation interpret := (interpret env self report_id group_id).
Local Abbreviation attempt_body :=
  (attempt_body env self report_id group_id file_format
     polling_timeout_minutes page_names url_filter).
Local Abbreviation export_attempt :=
  (export_attempt env self report_id group_id file_format
     polling_timeout_minutes page_names url_filter).
Local Abbreviation for_attempts :=
  (for_attempts env self report_id group_id file_format
     polling_timeout_minutes page_names url_filter).
Local Abbreviation export_power_bi_report :=
  (export_power_bi_report env self report_id group_id file_format
     polling_timeout_minutes page_names url_filter).
Local Abbreviation post_export_request :=
  (post_export_request env self report_id group_id file_format page_names url_filter).
Local Abbreviation poll_export_request :=
  (fun export_id =>
     poll_export_request env self report_id group_id export_id polling_timeout_minutes).

Lemma quiet_refl w : quiet w w.
Proof. exists []. by rewrite app_nil_r. Qed.

Lemma quiet_trans w1 w2 w3 : quiet w1 w2 -> quiet w2 w3 -> quiet w1 w3.
Proof.
  intros (evs1 & H1 & Hq1) (evs2 & H2 & Hq2). exists (evs1 ++ evs2). split.
  - by rewrite H2, H1, app_assoc.
  - unfold submissions in *. rewrite List.filter_app, length_app. lia.
Qed.

Lemma ret_quiet {A} (a : A) : submits_nothing (ret a).
Proof. intros w r w' [= <- <-]. apply quiet_refl. Qed.

Lemma raise_quiet {A} e : submits_nothing (raise (A:=A) e).
Proof. intros w r w' [= <- <-]. apply quiet_refl. Qed.

Lemma bind_quiet {A B} (m : M A) (k : A -> M B) :
  submits_nothing m -> (forall a, submits_nothing (k a)) ->
  submits_nothing (bind m k).
Proof.
  intros Hm Hk w r w'. unfold bind.
  destruct (m w) as [[e|a] w1] eqn:Hmw; intros H.
  - simplify_eq. eapply Hm, Hmw.
  - eapply quiet_trans; [eapply Hm, Hmw | eapply Hk, H].
Qed.

Lemma asyncio_sleep_quiet d : submits_nothing (asyncio_sleep env d).
Proof.
  unfold asyncio_sleep. destruct (float_limit <=? d); [apply raise_quiet|].
  intros w r w' [= <- <-]. by eexists [_].
Qed.

Lemma print_quiet p : submits_nothing (print p).
Proof. intros w r w' [= <- <-]. by eexists [_]. Qed.

Lemma get_quiet url hdrs : submits_nothing (request env (Get url hdrs)).
Proof.
  intros w r w'. unfold request.
  destruct (result_of (respond env (step w))); intros [= <- <-]; by eexists [_].
Qed.

Lemma getitem_quiet v k : submits_nothing (Py_ops.getitem v k).
Proof.
  unfold Py_ops.getitem.
  repeat case_match; first [apply ret_quiet | apply raise_quiet].
Qed.

Lemma contains_quiet k v : submits_nothing (Py_ops.contains k v).
Proof.
  unfold Py_ops.contains.
  repeat case_match; first [apply ret_quiet | apply raise_quiet].
Qed.

Lemma raise_for_status_quiet o : submits_nothing (raise_for_status o).
Proof.
  unfold raise_for_status.
  repeat case_match; first [apply ret_quiet | apply raise_quiet].
Qed.

Lemma response_read_quiet o : submits_nothing (response_read o).
Proof.
  unfold response_read.
  repeat case_match; first [apply ret_quiet | apply raise_quiet].
Qed.

Lemma session_get_quiet url : submits_nothing (session_get env self url).
Proof.
  unfold session_get.
  repeat case_match; first [apply get_quiet | apply raise_quiet].
Qed.

(** Composing the above along the text of a method. *)
Ltac quiet_steps :=
  repeat first
    [ apply bind_quiet; [|intros ?]
    | apply ret_quiet | apply raise_quiet | apply asyncio_sleep_quiet
    | apply print_quiet | apply get_quiet | apply getitem_quiet
    | apply contains_quiet | apply raise_for_status_quiet
    | apply response_read_quiet | apply session_get_quiet
    | assumption
    | match goal with
      | H : forall x, submits_nothing _ |- _ => apply H
      | |- submits_nothing (match ?x with _ => _ end) => destruct x
      end ].

(** A timeout: [in] on [None] raises. *)
Lemma interpret_none w : interpret PyNone w = (inl TypeError, w).
Proof. reflexivity. Qed.

Lemma interpret_failed_retry items R w :
  Py.assoc "status" items = Some (PyStr "Failed") ->
  Py.assoc "retryAfter" items = Some (PyInt R) ->
  R < float_limit ->
  interpret (PyDict items) w = (inr NextAttempt, slept env R w).
Proof.
  intros Hs Hr Hfloat. unfold interpret. run. rewrite Hs. simpl. rewrite Hr. simpl.
  rewrite ?Hr. simpl. unfold asyncio_sleep.
  by destruct (Z.leb_spec float_limit R); [lia|].
Qed.

(** A delay beyond the range of float: the sleep raises, nothing is
    slept. *)
Lemma interpret_failed_overflow items R w :
  Py.assoc "status" items = Some (PyStr "Failed") ->
  Py.assoc "retryAfter" items = Some (PyInt R) ->
  float_limit <= R ->
  interpret (PyDict items) w = (inl OverflowError, w).
Proof.
  intros Hs Hr Hfloat. unfold interpret. run. rewrite Hs. simpl. rewrite Hr. simpl.
  rewrite ?Hr. simpl. unfold asyncio_sleep.
  by destruct (Z.leb_spec float_limit R); [|lia].
Qed.

Lemma interpret_failed_final items w :
  Py.assoc "status" items = Some (PyStr "Failed") ->
  Py.assoc "retryAfter" items = None ->
  interpret (PyDict items) w = (inr (Returned None), w).
Proof.
  intros Hs Hr. unfold interpret. run. rewrite Hs. simpl. by rewrite Hr.
Qed.

Lemma get_exported_file_eq items location name extension w :
  Py.assoc "resourceLocation" items = Some (PyStr location) ->
  Py.assoc "reportName" items = Some (PyStr name) ->
  Py.assoc "resourceFileExtension" items = Some (PyStr extension) ->
  get_exported_file env self report_id group_id (PyDict items) w
  = (match result_of (respond env (step w)) with
     | Fault e => inl e
     | Http status _ content =>
         if 400 <=? status then inl (ClientResponseError status)
         else inr {| content := content; filename := name +:+ "." +:+ extension |}
     end,
     answered env (Get location (headers self)) w).
Proof.
  intros Hl Hn Hx. unfold get_exported_file, session_get, raise_for_status, response_read.
  run. rewrite Hl. simpl.
  destruct (result_of (respond env (step w))) as [fault|status json content]; [done|].
  simpl. destruct (400 <=? status); [done|]. simpl. by rewrite Hn, Hx.
Qed.

Lemma interpret_succeeded items w :
  Py.assoc "status" items = Some (PyStr "Succeeded") ->
  interpret (PyDict items) w
  = match get_exported_file env self report_id group_id (PyDict items) w with
    | (inl e, w') => (inl e, w')
    | (inr file, w') => (inr (Returned (Some file)), w')
    end.
Proof.
  intros Hs. unfold interpret. run. rewrite Hs. simpl. rewrite ?Hs. simpl.
  by destruct (get_exported_file env self report_id group_id (PyDict items) w) as [[]].
Qed.

Lemma get_exported_file_quiet export :
  submits_nothing (get_exported_file env self report_id group_id export).
Proof. unfold get_exported_file. quiet_steps. Qed.

Lemma interpret_quiet export : submits_nothing (interpret export).
Proof. unfold interpret, sleep_for. quiet_steps. Qed.

(** ** One attempt *)

Lemma post_export_request_journal w r w1 :
  post_export_request w = (r, w1) ->
  let url := export_to_url self report_id group_id in
  journal w1 = journal w ++
    [Ev (step w) (now w) (Print (PrintedUrl url));
     Ev (step w) (now w)
       (Post url (headers self) (export_data file_format page_names url_filter))].
Proof.
  rewrite post_export_request_eq. intros [= _ <-].
  unfold answered, wrote, record. simpl. by rewrite <- app_assoc.
Qed.

Lemma attempt_body_step w id w1 export w2 :
  post_export_request w = (inr id, w1) ->
  poll_export_request id w1 = (inr export, w2) ->
  attempt_body w = interpret export w2.
Proof.
  intros Hpost Hpoll. unfold attempt_body, bind. by rewrite Hpost, Hpoll.
Qed.

(** An exception of the submission or of the polling is an exception of
    the [try] block. *)
Lemma attempt_body_submit_raises w e w1 :
  post_export_request w = (inl e, w1) -> attempt_body w = (inl e, w1).
Proof. intros Hpost. unfold attempt_body, bind. by rewrite Hpost. Qed.

Lemma attempt_body_poll_raises w id w1 e w2 :
  post_export_request w = (inr id, w1) ->
  poll_export_request id w1 = (inl e, w2) ->
  attempt_body w = (inl e, w2).
Proof. intros Hpost Hpoll. unfold attempt_body, bind. by rewrite Hpost, Hpoll. Qed.

(** An attempt makes exactly one submission, and starts with it. *)
Lemma attempt_body_journal w r w' :
  attempt_body w = (r, w') ->
  let url := export_to_url self report_id group_id in
  exists evs,
    journal w' = journal w ++
      Ev (step w) (now w) (Print (PrintedUrl url))
      :: Ev (step w) (now w)
           (Post url (headers self) (export_data file_format page_names url_filter))
      :: evs /\
    submissions evs = 0%nat.
Proof.
  intros H url. unfold attempt_body, bind in H.
  destruct (post_export_request w) as [[e|id] w1] eqn:Hpost;
    pose proof (post_export_request_journal _ _ _ Hpost) as Hj1; simpl in Hj1.
  { simplify_eq. exists []. by rewrite Hj1. }
  assert (quiet w1 w') as (evs & Hj & Hq).
  { destruct (poll_export_request id w1) as [[e|export] w2] eqn:Hpoll.
    - simplify_eq. eapply poll_export_request_quiet, Hpoll.
    - eapply quiet_trans;
        [eapply poll_export_request_quiet, Hpoll | eapply interpret_quiet, H]. }
  exists evs. split; [|done]. rewrite Hj, Hj1. by rewrite <- app_assoc.
Qed.

Lemma export_attempt_journal attempt w r w' :
  export_attempt attempt w = (r, w') ->
  let url := export_to_url self report_id group_id in
  exists evs,
    journal w' = journal w ++
      Ev (step w) (now w) (Print (PrintedUrl url))
      :: Ev (step w) (now w)
           (Post url (headers self) (export_data file_format page_names url_filter))
      :: evs /\
    submissions evs = 0%nat.
Proof.
  intros H url. unfold export_attempt in H.
  destruct (attempt_body w) as [[e|f] w1] eqn:Hbody;
    destruct (attempt_body_journal _ _ _ Hbody) as (evs & Hj & Hq).
  - exists (evs ++ [Ev (step w1) (now w1) (Print (PrintedError (attempt + 1) e))]).
    assert (journal w' = journal w1 ++
              [Ev (step w1) (now w1) (Print (PrintedError (attempt + 1) e))]) as ->.
    { run. by destruct (attempt =? max_retries - 1); simplify_eq. }
    split.
    + rewrite Hj. by rewrite <- app_assoc.
    + unfold submissions in *. rewrite List.filter_app, length_app. simpl. lia.
  - simplify_eq. eauto.
Qed.

Lemma submissions_app j1 j2 :
  submissions (j1 ++ j2) = (submissions j1 + submissions j2)%nat.
Proof. unfold submissions. by rewrite List.filter_app, length_app. Qed.

(** The loop makes at most one submission per value of [attempt]. *)
Lemma for_attempts_submissions attempts :
  forall w,
    (submissions (journal (snd (for_attempts attempts w)))
     <= submissions (journal w) + length attempts)%nat.
Proof.
  induction attempts as [|attempt rest IH]; intros w; simpl; [lia|].
  unfold bind.
  destruct (export_attempt attempt w) as [[e|f] w1] eqn:Hattempt;
    destruct (export_attempt_journal _ _ _ _ Hattempt) as (evs & Hj & Hq).
  - simpl. rewrite Hj, submissions_app. simpl. unfold submissions at 2. simpl.
    fold (submissions evs). lia.
  - assert (submissions (journal w1) = S (submissions (journal w))) as Hone.
    { rewrite Hj, submissions_app. unfold submissions at 2. simpl.
      fold (submissions evs). lia. }
    destruct f as [v|]; simpl; [lia|].
    specialize (IH w1). lia.
Qed.

Lemma for_attempts_grows attempts :
  forall w, exists evs,
    journal (snd (for_attempts attempts w)) = journal w ++ evs.
Proof.
  induction attempts as [|attempt rest IH]; intros w; simpl.
  { exists []. by rewrite app_nil_r. }
  unfold bind.
  destruct (export_attempt attempt w) as [r w1] eqn:Hattempt.
  destruct (export_attempt_journal _ _ _ _ Hattempt) as (evs1 & Hj1 & _).
  destruct r as [e|[v|]]; simpl; try (eexists; exact Hj1).
  destruct (IH w1) as (evs2 & Hj2). rewrite Hj2, Hj1.
  eexists. by rewrite <- app_assoc.
Qed.

Lemma attempts_from_cons attempt :
  attempt < max_retries ->
  attempts_from attempt = attempt :: attempts_from (attempt + 1).
Proof.
  intros H. unfold attempts_from. rewrite seqZ_cons by lia.
  f_equal. f_equal; lia.
Qed.

Lemma attempts_from_last : attempts_from max_retries = [].
Proof. reflexivity. Qed.

Lemma export_power_bi_report_eq :
  export_power_bi_report = for_attempts (attempts_from 0).
Proof. reflexivity. Qed.

(** A swallowed exception: the handler prints and goes on. *)
Lemma export_attempt_raise attempt w e w1 :
  attempt_body w = (inl e, w1) ->
  export_attempt attempt w
  = (if attempt =? max_retries - 1 then inl e else inr NextAttempt,
     wrote (PrintedError (attempt + 1) e) w1).
Proof.
  intros H. unfold export_attempt. rewrite H. run.
  by destruct (attempt =? max_retries - 1).
Qed.

Lemma export_attempt_done attempt w f w1 :
  attempt_body w = (inr f, w1) -> export_attempt attempt w = (inr f, w1).
Proof. intros H. unfold export_attempt. by rewrite H. Qed.

(** ** The claims on the attempt loop *)

(** A timeout, the poll loop ending with [None]: the test
    ['retryAfter' in export] raises [TypeError] inside the [try]
    block. *)
Lemma attempt_body_timeout w id w1 w2 :
  post_export_request w = (inr id, w1) ->
  poll_export_request id w1 = (inr PyNone, w2) ->
  attempt_body w = (inl TypeError, w2).
Proof. intros Hpost Hpoll. by rewrite (attempt_body_step _ _ _ _ _ Hpost Hpoll). Qed.

(** C2, as the program has it: when the terminal snapshot of an attempt is
    Failed and carries [retryAfter = R] with [R] within the range of float
    (below [float_limit], so that [asyncio.sleep] takes it), the attempt
    sleeps [R] and ends without a return; if attempts remain, the next
    submission is journalled at a clock reading at least [R] after the
    snapshot was received.  Whatever the service does, an invocation makes
    at most [max_retries] (3) submissions. *)
Theorem C2_retry_after_is_waited attempt w id w1 items R w2 w0 :
  post_export_request w = (inr id, w1) ->
  poll_export_request id w1 = (inr (PyDict items), w2) ->
  Py.assoc "status" items = Some (PyStr "Failed") ->
  Py.assoc "retryAfter" items = Some (PyInt R) ->
  R < float_limit ->
  export_attempt attempt w = (inr NextAttempt, slept env R w2) /\
  now w2 + R <= now (slept env R w2) /\
  (attempt + 1 < max_retries ->
   let url := export_to_url self report_id group_id in
   exists t n evs,
     journal (snd (for_attempts (attempts_from attempt) w))
     = journal w2 ++
         Ev (step w2) (now w2) (Sleep R)
         :: Ev n t (Print (PrintedUrl url))
         :: Ev n t (Post url (headers self)
                      (export_data file_format page_names url_filter))
         :: evs /\
     now w2 + R <= t) /\
  (submissions (journal (snd (export_power_bi_report w0)))
   <= submissions (journal w0) + Z.to_nat max_retries)%nat.
Proof.
  intros Hpost Hpoll Hs Hr Hfloat.
  assert (export_attempt attempt w = (inr NextAttempt, slept env R w2)) as Hattempt.
  { apply export_attempt_done.
    rewrite (attempt_body_step _ _ _ _ _ Hpost Hpoll).
    by apply interpret_failed_retry. }
  split; [done|]. split; [simpl; lia|]. split.
  - intros Hmore url.
    rewrite attempts_from_cons by lia. simpl. unfold bind at 1. rewrite Hattempt.
    rewrite attempts_from_cons by lia. simpl. unfold bind at 1.
    destruct (export_attempt (attempt + 1) (slept env R w2)) as [r w3] eqn:Hnext.
    destruct (export_attempt_journal _ _ _ _ Hnext) as (evs & Hj & _).
    assert (exists evs',
              journal (snd (match r with
                            | inl e => (inl e, w3)
                            | inr (Returned v) => ret v w3
                            | inr NextAttempt =>
                                for_attempts (attempts_from (attempt + 1 + 1)) w3
                            end)) = journal w3 ++ evs') as (evs' & Hj').
    { destruct r as [e|[v|]]; simpl; try (exists []; by rewrite app_nil_r).
      apply for_attempts_grows. }
    exists (now (slept env R w2)), (step (slept env R w2)), (evs ++ evs').
    split; [|simpl; lia].
    etransitivity; [|].
    { destruct r as [e|[v|]]; exact Hj'. }
    rewrite Hj. unfold slept at 1, record. simpl.
    rewrite <- !app_assoc. reflexivity.
  - rewrite export_power_bi_report_eq.
    etransitivity; [apply for_attempts_submissions|]. done.
Qed.

(** C3: when the terminal snapshot of the first attempt is Failed and
    carries no [retryAfter], the invocation returns [None] at once: its
    final world is the one in which the snapshot was received, and its
    journal holds exactly one submission more than before. *)
Theorem C3_failed_without_retry_after w id w1 items w2 :
  post_export_request w = (inr id, w1) ->
  poll_export_request id w1 = (inr (PyDict items), w2) ->
  Py.assoc "status" items = Some (PyStr "Failed") ->
  Py.assoc "retryAfter" items = None ->
  export_power_bi_report w = (inr None, w2) /\
  submissions (journal w2) = (submissions (journal w) + 1)%nat.
Proof.
  intros Hpost Hpoll Hs Hr.
  assert (attempt_body w = (inr (Returned None), w2)) as Hbody.
  { rewrite (attempt_body_step _ _ _ _ _ Hpost Hpoll).
    by apply interpret_failed_final. }
  split.
  - rewrite export_power_bi_report_eq, attempts_from_cons by done.
    simpl. unfold bind. by rewrite (export_attempt_done _ _ _ _ Hbody).
  - destruct (attempt_body_journal _ _ _ Hbody) as (evs & Hj & Hq).
    rewrite Hj, submissions_app. unfold submissions at 2. simpl.
    fold (submissions evs). lia.
Qed.

(** C4: an exception raised in the [try] block of an attempt (by the
    submission, by the polling, or later) is printed; when the attempt is
    not the last one it is swallowed, and the next attempt starts with a
    submission of its own and polls the handle that submission returns;
    raised in the last attempt, it reaches the caller, not [None]. *)
Theorem C4_exceptions_swallowed_until_last attempt w e w1 :
  attempt_body w = (inl e, w1) ->
  let w1' := wrote (PrintedError (attempt + 1) e) w1 in
  (attempt + 1 < max_retries ->
   for_attempts (attempts_from attempt) w
     = for_attempts (attempts_from (attempt + 1)) w1' /\
   (let url := export_to_url self report_id group_id in
    exists evs,
      journal (snd (for_attempts (attempts_from attempt) w))
      = journal w1 ++
          Ev (step w1) (now w1) (Print (PrintedError (attempt + 1) e))
          :: Ev (step w1) (now w1) (Print (PrintedUrl url))
          :: Ev (step w1) (now w1)
               (Post url (headers self)
                  (export_data file_format page_names url_filter))
          :: evs) /\
   (forall handle w2,
      post_export_request w1' = (inr handle, w2) ->
      attempt_body w1'
      = (let* export := poll_export_request handle in interpret export) w2)) /\
  (attempt + 1 = max_retries ->
   for_attempts (attempts_from attempt) w = (inl e, w1')).
Proof.
  intros Hbody w1'. pose proof (export_attempt_raise attempt _ _ _ Hbody) as Hattempt.
  split.
  - intros Hmore.
    assert (for_attempts (attempts_from attempt) w
            = for_attempts (attempts_from (attempt + 1)) w1') as Hloop.
    { rewrite attempts_from_cons by lia. simpl. unfold bind at 1.
      rewrite Hattempt. by destruct (Z.eqb_spec attempt (max_retries - 1)); [lia|]. }
    split; [done|]. split.
    + intros url. rewrite Hloop, attempts_from_cons by lia. simpl. unfold bind at 1.
      destruct (export_attempt (attempt + 1) w1') as [r w3] eqn:Hnext.
      destruct (export_attempt_journal _ _ _ _ Hnext) as (evs & Hj & _).
      assert (exists evs',
                journal (snd (match r with
                              | inl e => (inl e, w3)
                              | inr (Returned v) => ret v w3
                              | inr NextAttempt =>
                                  for_attempts (attempts_from (attempt + 1 + 1)) w3
                              end)) = journal w3 ++ evs') as (evs' & Hj').
      { destruct r as [e'|[v|]]; simpl; try (exists []; by rewrite app_nil_r).
        apply for_attempts_grows. }
      exists (evs ++ evs').
      etransitivity; [destruct r as [e'|[v|]]; exact Hj'|].
      rewrite Hj. unfold w1', wrote, record. simpl.
      rewrite <- !app_assoc. reflexivity.
    + intros handle w2 Hpost. unfold attempt_body, bind. by rewrite Hpost.
  - intros Hlast. rewrite attempts_from_cons by lia. simpl. unfold bind at 1.
    rewrite Hattempt. by destruct (Z.eqb_spec attempt (max_retries - 1)); [|lia].
Qed.

(** C5: when the terminal snapshot of an attempt is Succeeded and has
    [resourceLocation], [reportName] and [resourceFileExtension], the
    [try] block performs exactly one fetch after the poll, of the snapshot's
    [resourceLocation]; when that fetch is answered below status 400 the
    invocation returns the bytes of the answer under the file name
    [reportName + "." + resourceFileExtension]. *)
Theorem C5_exported_file attempt w id w1 items w2 location name extension :
  post_export_request w = (inr id, w1) ->
  poll_export_request id w1 = (inr (PyDict items), w2) ->
  Py.assoc "status" items = Some (PyStr "Succeeded") ->
  Py.assoc "resourceLocation" items = Some (PyStr location) ->
  Py.assoc "reportName" items = Some (PyStr name) ->
  Py.assoc "resourceFileExtension" items = Some (PyStr extension) ->
  let w3 := answered env (Get location (headers self)) w2 in
  journal (snd (attempt_body w))
    = journal w2 ++ [Ev (step w2) (now w2) (Get location (headers self))] /\
  (forall status json content,
     result_of (respond env (step w2)) = Http status json content ->
     status < 400 ->
     forall rest,
       for_attempts (attempt :: rest) w
       = (inr (Some {| content := content;
                       filename := name +:+ "." +:+ extension |}), w3)).
Proof.
  intros Hpost Hpoll Hs Hl Hn Hx w3.
  pose proof (attempt_body_step _ _ _ _ _ Hpost Hpoll) as Hbody.
  rewrite (interpret_succeeded _ _ Hs) in Hbody.
  rewrite (get_exported_file_eq _ _ _ _ _ Hl Hn Hx) in Hbody. fold w3 in Hbody.
  split.
  - rewrite Hbody.
    destruct (result_of (respond env (step w2))) as [fault|status json content]; [done|].
    by destruct (400 <=? status).
  - intros status json content Hanswer Hok rest. rewrite Hanswer in Hbody.
    destruct (Z.leb_spec 400 status); [lia|].
    simpl. unfold bind. by rewrite (export_attempt_done _ _ _ _ Hbody).
Qed.

(** C7: when every one of the three attempts ends without a return and
    without an exception reaching the caller, the invocation returns
    [None], which is a result and not an exception. *)
Theorem C7_exhausted_attempts_return_none w0 w1 w2 w3 :
  export_attempt 0 w0 = (inr NextAttempt, w1) ->
  export_attempt 1 w1 = (inr NextAttempt, w2) ->
  export_attempt 2 w2 = (inr NextAttempt, w3) ->
  export_power_bi_report w0 = (inr None, w3) /\
  forall e : exn, fst (export_power_bi_report w0) <> inl e.
Proof.
  intros H0 H1 H2.
  assert (export_power_bi_report w0 = (inr None, w3)) as Hrun.
  { unfold export_power_bi_report. change (seqZ 0 max_retries) with [0; 1; 2].
    cbn [for_attempts]. unfold bind. by rewrite H0, H1, H2. }
  split; [done|]. intros e. by rewrite Hrun.
Qed.

(** C9: what [poll_export_request] returns is [None] or a terminal
    snapshot, a dictionary whose [status] is exactly ["Succeeded"] or
    ["Failed"]; so the interpretation of an attempt is only ever applied
    to [None] or to a terminal snapshot. *)
Theorem C9_poll_returns_terminal_or_none w id w1 export w2 :
  poll_export_request id w1 = (inr export, w2) ->
  (export <> PyNone -> terminal export) /\
  (post_export_request w = (inr id, w1) ->
   attempt_body w = interpret export w2 /\ (export = PyNone \/ terminal export)).
Proof.
  intros Hpoll.
  assert (export = PyNone \/ terminal export) as Hexport.
  { destruct (poll_export_request_shape report_id group_id id
                polling_timeout_minutes w1) as (evs & _ & Hshape).
    rewrite Hpoll in Hshape. eapply poll_shape_result, Hshape. }
  split.
  - by destruct Hexport.
  - intros Hpost. split; [|done]. by apply (attempt_body_step _ _ _ _ _ Hpost Hpoll).
Qed.

End Attempts.

End Properties.

(** * The claims on concrete runs *)

Import Scenario.

(** C1: the service accepts the submission and never finishes; the timeout
    is one minute.  The poll loop of the first attempt ends with [None] at
    the deadline, 60 seconds after it started.  The invocation does not
    return [None] then: the test ['retryAfter' in export] raises
    [TypeError], the handler swallows it, and two more attempts submit and
    poll, so that status is fetched after the first deadline; the
    [TypeError] of the third attempt reaches the caller. *)
Theorem C1_timeout_is_retried :
  let run := export_power_bi_report stalled me "R1" "W1" PNG 1 None None world0 in
  poll_export_request stalled me "R1" "W1" (PyStr "E1") 1 (submitted stalled)
    = (inr PyNone, polled stalled 1) /\
  now (polled stalled 1) = now world0 + 60 /\
  fst run = inl TypeError /\
  submissions (journal (snd run)) = 3%nat /\
  existsb (is_get_after (now world0 + 60)) (journal (snd run)) = true.
Proof. vm_compute. repeat split; reflexivity. Qed.

(** The poll of the scenario of the specification: a fetch at 1001, the
    sleep of 5 seconds, the fetch at 1007 that succeeds. *)
Example poll_sales_journal :
  let url := export_status_url me "R1" "W1" (PyStr "E1") in
  journal (polled sales 10)
  = journal (submitted sales)
      ++ [Ev 1 1001 (Get url (headers me)); Ev 2 1002 (Sleep 5);
          Ev 3 1007 (Get url (headers me))].
Proof. vm_compute. reflexivity. Qed.

(** The busy service: the first attempt is told to come back after 7
    seconds, sleeps (and oversleeps by one), and the second submission is
    journalled 8 seconds after the snapshot. *)
Lemma C2_witness :
  Py.assoc "retryAfter" [("id", PyStr "E1"); ("status", PyStr "Failed");
                         ("retryAfter", PyInt 7)] = Some (PyInt 7) /\
  export_attempt busy me "R1" "W1" PNG 10 None None 0 world0
    = (inr NextAttempt, slept busy 7 (polled busy 10)) /\
  now (polled busy 10) + 7 <= now (slept busy 7 (polled busy 10)) /\
  (submissions (journal (snd (export_power_bi_report busy me "R1" "W1" PNG 10
                                None None world0))) <= 3)%nat.
Proof.
  destruct (C2_retry_after_is_waited busy me "R1" "W1" PNG 10 None None 0
              world0 (PyStr "E1") (submitted busy)
              [("id", PyStr "E1"); ("status", PyStr "Failed"); ("retryAfter", PyInt 7)]
              7 (polled busy 10) world0)
    as (Hattempt & Hwait & _ & Hbound);
    [vm_compute; reflexivity ..|].
  split; [reflexivity|]. split; [exact Hattempt|]. split; [exact Hwait|exact Hbound].
Defined.

(** C2 as stated fails.  The service fails the export and asks to come
    back after [2^1024] seconds.  The sleep raises [OverflowError] in the
    [try] block, the handler swallows it, and the second submission is
    journalled at the clock reading at which the snapshot was received:
    nothing has been waited. *)
Lemma C2_counterexample :
  poll_export_request Cases.eternal me "R1" "W1" (PyStr "E1") 10
      (submitted Cases.eternal)
    = (inr Cases.eternal_snapshot, polled Cases.eternal 10) /\
  attempt_body Cases.eternal me "R1" "W1" PNG 10 None None world0
    = (inl OverflowError, polled Cases.eternal 10) /\
  export_attempt Cases.eternal me "R1" "W1" PNG 10 None None 0 world0
    = (inr NextAttempt,
       wrote (PrintedError 1 OverflowError) (polled Cases.eternal 10)) /\
  journal (snd (export_power_bi_report Cases.eternal me "R1" "W1" PNG 10
                  None None world0)) !! 5%nat
    = Some (Ev (step (polled Cases.eternal 10)) (now (polled Cases.eternal 10))
              (Post (export_to_url me "R1" "W1") (headers me)
                 (export_data PNG None None))) /\
  ~ (now (polled Cases.eternal 10) + 2 ^ 1024 <= now (polled Cases.eternal 10)).
Proof.
  repeat split; try (vm_compute; reflexivity).
  intros H. vm_compute in H. by apply H.
Qed.

(** The broken service: one submission, then [None]. *)
Lemma C3_witness :
  Py.assoc "retryAfter" [("id", PyStr "E1"); ("status", PyStr "Failed")] = None /\
  export_power_bi_report broken me "R1" "W1" PNG 10 None None world0
    = (inr None, polled broken 10) /\
  submissions (journal (polled broken 10)) = 1%nat.
Proof.
  destruct (C3_failed_without_retry_after broken me "R1" "W1" PNG 10 None None
              world0 (PyStr "E1") (submitted broken)
              [("id", PyStr "E1"); ("status", PyStr "Failed")] (polled broken 10))
    as (Hrun & Hone);
    [vm_compute; reflexivity ..|].
  split; [reflexivity|]. split; [exact Hrun|exact Hone].
Defined.

(** The unreachable service: the fault of the first submission is
    swallowed, and the loop goes on with the second attempt. *)
Lemma C4_witness :
  attempt_body unreachable me "R1" "W1" PNG 10 None None world0
    = (inl ClientConnectionError, submitted unreachable) /\
  for_attempts unreachable me "R1" "W1" PNG 10 None None (attempts_from 0) world0
    = for_attempts unreachable me "R1" "W1" PNG 10 None None (attempts_from 1)
        (wrote (PrintedError 1 ClientConnectionError) (submitted unreachable)).
Proof.
  assert (attempt_body unreachable me "R1" "W1" PNG 10 None None world0
          = (inl ClientConnectionError, submitted unreachable)) as Hbody
    by (vm_compute; reflexivity).
  destruct (C4_exceptions_swallowed_until_last unreachable me "R1" "W1" PNG 10
              None None 0 world0 ClientConnectionError (submitted unreachable) Hbody)
    as (Hswallow & _).
  destruct Hswallow as (Hloop & _); [reflexivity|].
  split; [exact Hbody|exact Hloop].
Defined.

(** The scenario of the specification: one fetch of L, and Sales.png. *)
Lemma C5_witness :
  journal (snd (attempt_body sales me "R1" "W1" PNG 10 None None world0))
    = journal (polled sales 10)
        ++ [Ev (step (polled sales 10)) (now (polled sales 10)) (Get "L" (headers me))] /\
  fst (export_power_bi_report sales me "R1" "W1" PNG 10 None None world0)
    = inr (Some {| content := ["P"%byte; "N"%byte; "G"%byte]; filename := "Sales.png" |}).
Proof.
  destruct (C5_exported_file sales me "R1" "W1" PNG 10 None None 0
              world0 (PyStr "E1") (submitted sales)
              [("status", PyStr "Succeeded"); ("resourceLocation", PyStr "L");
               ("reportName", PyStr "Sales"); ("resourceFileExtension", PyStr "png")]
              (polled sales 10) "L" "Sales" "png")
    as (Hfetch & Hfile);
    [vm_compute; reflexivity ..|].
  split; [exact Hfetch|].
  change (export_power_bi_report sales me "R1" "W1" PNG 10 None None world0)
    with (for_attempts sales me "R1" "W1" PNG 10 None None [0; 1; 2] world0).
  rewrite (Hfile 200 (inl ContentTypeError) ["P"%byte; "N"%byte; "G"%byte]); [reflexivity| |lia].
  vm_compute; reflexivity.
Defined.

(** The busy service: three attempts, each told to come back, then
    [None]. *)
Lemma C7_witness :
  export_power_bi_report busy me "R1" "W1" PNG 10 None None world0
    = (inr None,
       snd (export_power_bi_report busy me "R1" "W1" PNG 10 None None world0)) /\
  forall e : exn,
    fst (export_power_bi_report busy me "R1" "W1" PNG 10 None None world0) <> inl e.
Proof.
  apply (C7_exhausted_attempts_return_none busy me "R1" "W1" PNG 10 None None
           world0
           (snd (export_attempt busy me "R1" "W1" PNG 10 None None 0 world0))
           (snd (for_attempts busy me "R1" "W1" PNG 10 None None [0; 1] world0))
           (snd (export_power_bi_report busy me "R1" "W1" PNG 10 None None world0)));
    vm_compute; reflexivity.
Defined.

(** The scenario of the specification: the poll returns the Succeeded
    snapshot. *)
Lemma C9_witness :
  poll_export_request sales me "R1" "W1" (PyStr "E1") 10 (submitted sales)
    = (inr sales_snapshot, polled sales 10) /\
  terminal sales_snapshot.
Proof.
  assert (poll_export_request sales me "R1" "W1" (PyStr "E1") 10 (submitted sales)
          = (inr sales_snapshot, polled sales 10)) as Hpoll
    by (vm_compute; reflexivity).
  destruct (C9_poll_returns_terminal_or_none sales me "R1" "W1" PNG 10 None None
              world0 (PyStr "E1") (submitted sales) sales_snapshot (polled sales 10)
              Hpoll) as (Hterminal & _).
  split; [exact Hpoll|]. apply Hterminal. discriminate.
Defined.

(** A submission answered 200 with [{"id": "E1"}] returns E1; answered 401
    it raises the response error with status 401; answered 200 as JSON with
    a body that is no JSON document it raises the decode error; not answered
    within the timeout of the client it raises the timeout error. *)
Lemma C8_witness :
  fst (post_export_request (answering 200 (PyDict [("id", PyStr "E1")])) me
         "R1" "W1" PNG None None world0) = inr (PyStr "E1") /\
  fst (post_export_request (answering 401 (PyDict [])) me
         "R1" "W1" PNG None None world0) = inl (ClientResponseError 401) /\
  fst (post_export_request Cases.garbled me "R1" "W1" PNG None None world0)
    = inl JSONDecodeError /\
  fst (post_export_request Cases.slow me "R1" "W1" PNG None None world0)
    = inl TimeoutError.
Proof.
  split; [|split; [|split]].
  - destruct (C8_submit_outcome (answering 200 (PyDict [("id", PyStr "E1")])) me
                "R1" "W1" PNG None None world0) as (Hok & _).
    apply (Hok 200 [("id", PyStr "E1")] [] (PyStr "E1")); [reflexivity|lia|reflexivity].
  - destruct (C8_submit_outcome (answering 401 (PyDict [])) me
                "R1" "W1" PNG None None world0) as (_ & Hbad & _).
    apply (Hbad 401 (inr (PyDict [])) []); [reflexivity|lia].
  - destruct (C8_submit_outcome Cases.garbled me
                "R1" "W1" PNG None None world0) as (_ & _ & Hjson & _).
    apply (Hjson 200 JSONDecodeError []); [reflexivity|lia].
  - destruct (C8_submit_outcome Cases.slow me
                "R1" "W1" PNG None None world0) as (_ & _ & _ & Hfault).
    apply (Hfault TimeoutError). reflexivity.
Defined.

(** C8 as stated fails.  A submission answered 300 with [{"id": "E1"}]
    returns E1 where the specification has an [ApiError]; answers 500 with
    different bodies raise the same exception where the specification has
    different errors; so no reading of the exceptions gives the taxonomy. *)
Lemma C8_counterexample :
  fst (post_export_request (answering 300 (PyDict [("id", PyStr "E1")])) me
         "R1" "W1" PNG None None world0) = inr (PyStr "E1") /\
  Taxonomy.submit (Http 300 (inr (PyDict [("id", PyStr "E1")])) [])
    = Some (inl (Taxonomy.ApiError 300 (inr (PyDict [("id", PyStr "E1")])))) /\
  fst (post_export_request (answering 500 (PyStr "a")) me "R1" "W1" PNG None None world0)
    = fst (post_export_request (answering 500 (PyStr "b")) me "R1" "W1" PNG None None world0) /\
  Taxonomy.submit (Http 500 (inr (PyStr "a")) [])
    <> Taxonomy.submit (Http 500 (inr (PyStr "b")) []) /\
  fst (post_export_request (answering 401 (PyDict [])) me "R1" "W1" PNG None None world0)
    = inl (ClientResponseError 401) /\
  ~ Taxonomy.submit_claim.
Proof.
  repeat split; try (vm_compute; reflexivity); try discriminate.
  intros [classify Hclaim].
  specialize (Hclaim (answering 300 (PyDict [("id", PyStr "E1")])) me
                "R1" "W1" PNG None None world0
                (inl (Taxonomy.ApiError 300 (inr (PyDict [("id", PyStr "E1")]))))
                eq_refl).
  vm_compute in Hclaim. discriminate.
Qed.

(** A body with page names and no URL filter. *)
Lemma C10_witness :
  is_Some (export_data PNG (Some ["Page1"]) (Some "") !! "pageNames") /\
  export_data PNG (Some ["Page1"]) (Some "") !! "urlFilter" = None /\
  export_data PNG (Some []) None = export_data PNG None None.
Proof.
  destruct (C10_request_body sales me "R1" "W1" PNG (Some ["Page1"]) (Some "") world0)
    as (_ & _ & Hpages & Hfilter & _).
  split; [apply Hpages; reflexivity|]. split.
  - destruct (export_data PNG (Some ["Page1"]) (Some "") !! "urlFilter") eqn:Hlookup;
      [|reflexivity].
    assert (Py.truthy_str (Some "") = true) as Habsurd by (apply Hfilter; eauto).
    discriminate Habsurd.
  - apply (C10_request_body sales me "R1" "W1" PNG (Some []) None world0).
Defined.

(** * Further properties of the code *)

Section More.

Variable env : Env.
Variable self : PowerBIExporter.

(** ** list_reports *)

(** [list_reports] makes exactly one request, a fetch of the reports of the
    workspace, whatever the answer.  Answered below status 400 with a JSON
    dictionary, it returns what the dictionary has under [value], and the
    empty list when the dictionary has no such key. *)
Theorem list_reports_value group_id w status items content :
  result_of (respond env (step w)) = Http status (inr (PyDict items)) content ->
  status < 400 ->
  list_reports env self group_id w
  = (inr (default (PyList []) (Py.assoc "value" items)),
     answered env (Get (reports_url self group_id) (headers self)) w) /\
  journal (snd (list_reports env self group_id w))
  = journal w ++ [Ev (step w) (now w)
                    (Get (base_url self +:+ "/groups/" +:+ group_id +:+ "/reports")
                       (headers self))] /\
  (Py.assoc "value" items = None ->
   fst (list_reports env self group_id w) = inr (PyList [])).
Proof.
  intros Hanswer Hok.
  assert (list_reports env self group_id w
          = (inr (default (PyList []) (Py.assoc "value" items)),
             answered env (Get (reports_url self group_id) (headers self)) w)) as Hrun.
  { unfold list_reports, raise_for_status, response_json. run. rewrite Hanswer. simpl.
    destruct (Z.leb_spec 400 status); [lia|]. simpl.
    by destruct (Py.assoc "value" items). }
  rewrite Hrun. split; [done|]. split; [done|]. by intros ->.
Qed.

(** The failures of [list_reports] on a response: a status of 400 or above
    raises the response error with that status; below 400, an exception of
    [response.json()] (the content type error for a Content-Type that is
    not JSON, the decode error for a body that is no JSON document) is
    raised as it is, and a body decoded to something that is no dictionary
    (a list, a string, null) raises [AttributeError]; in each case the one
    request has been made. *)
Theorem list_reports_failures group_id w status json content :
  result_of (respond env (step w)) = Http status json content ->
  let outcome := fst (list_reports env self group_id w) in
  (400 <= status -> outcome = inl (Raised (ClientResponseError status))) /\
  (status < 400 -> forall e, json = inl e -> outcome = inl (Raised e)) /\
  (status < 400 ->
   forall v, json = inr v -> (forall items, v <> PyDict items) ->
   outcome = inl AttributeError) /\
  fetches (journal (snd (list_reports env self group_id w)))
  = S (fetches (journal w)).
Proof.
  intros Hanswer outcome. subst outcome.
  unfold list_reports, raise_for_status, response_json. run. rewrite Hanswer. simpl.
  split; [|split; [|split]].
  - intros Hbad. by destruct (Z.leb_spec 400 status); [|lia].
  - intros Hok e ->. by destruct (Z.leb_spec 400 status); [lia|].
  - intros Hok v -> Hv. destruct (Z.leb_spec 400 status); [lia|]. simpl.
    destruct v; try done. by destruct (Hv items).
  - assert (forall r : (listing_exn + pyval) * World,
              snd r = answered env (Get (reports_url self group_id) (headers self)) w ->
              fetches (journal (snd r)) = S (fetches (journal w))) as Hcount.
    { intros r ->. unfold answered, record, fetches. simpl.
      rewrite List.filter_app, length_app. simpl. lia. }
    apply Hcount. destruct (400 <=? status); [done|]. simpl.
    destruct json as [e|v]; [done|]. simpl. by destruct (dict_get v "value" (PyList [])).
Qed.

(** ** The body and the answer of a submission *)

(** The body of a submission has no key besides [format], [pageNames] and
    [urlFilter]; [pageNames] is the list of names as given, in its order,
    and [urlFilter] the filter as given. *)
Theorem export_data_entries file_format page_names url_filter :
  let data := export_data file_format page_names url_filter in
  (forall k, is_Some (data !! k) ->
     k = "format" \/ k = "pageNames" \/ k = "urlFilter") /\
  (forall name names, page_names = Some (name :: names) ->
     data !! "pageNames" = Some (PyList (PyStr <$> name :: names))) /\
  (forall filter, url_filter = Some filter -> filter <> "" ->
     data !! "urlFilter" = Some (PyStr filter)).
Proof.
  intros data. subst data. unfold export_data. split; [|split].
  - intros k [v Hk].
    destruct (decide (k = "format")) as [|Hf]; [by left|].
    destruct (decide (k = "pageNames")) as [|Hp]; [by right; left|].
    destruct (decide (k = "urlFilter")) as [|Hu]; [by right; right|].
    repeat case_match; by simplify_map_eq.
  - intros name names ->. simpl. case_match; by simplify_map_eq.
  - intros filter -> Hne. destruct filter as [|a filter]; [done|].
    simpl. case_match; by simplify_map_eq.
Qed.

(** A submission answered with a status below 400: when the body decodes
    to a dictionary without [id] it raises [KeyError]; when the body decodes
    to something that is no dictionary it raises [TypeError]; when
    [response.json()] raises (the content type error for a Content-Type
    that is not JSON, the decode error for a body that is no JSON document)
    that exception is raised as it is.  The submission has been made all
    the same. *)
Theorem submit_body_failures report_id group_id file_format page_names url_filter
    w status json content :
  result_of (respond env (step w)) = Http status json content ->
  status < 400 ->
  let run := post_export_request env self report_id group_id file_format
               page_names url_filter w in
  (forall items, json = inr (PyDict items) -> Py.assoc "id" items = None ->
     fst run = inl (KeyError "id")) /\
  (forall v, json = inr v -> (forall items, v <> PyDict items) ->
     fst run = inl TypeError) /\
  (forall e, json = inl e -> fst run = inl e) /\
  submissions (journal (snd run)) = S (submissions (journal w)).
Proof.
  intros Hanswer Hok run. subst run. rewrite post_export_request_eq. simpl.
  rewrite Hanswer. unfold handle_of.
  destruct (Z.leb_spec 400 status); [lia|].
  split; [|split; [|split]].
  - by intros items -> ->.
  - intros v -> Hv. destruct v; try done. by destruct (Hv items).
  - by intros e ->.
  - unfold answered, wrote, record, submissions. simpl.
    rewrite !List.filter_app, !length_app. simpl. lia.
Qed.

(** ** Polling: how often and how long *)

Lemma fetches_app j1 j2 : fetches (j1 ++ j2) = (fetches j1 + fetches j2)%nat.
Proof. unfold fetches. by rewrite List.filter_app, length_app. Qed.

Lemma poll_shape_fetches hdrs url start_time minutes t n evs r :
  poll_shape env hdrs url start_time minutes t n evs r ->
  (fetches evs <= Z.to_nat ((start_time + minutes * 60 - t + 4) / 5))%nat.
Proof.
  induction 1 as [t n Hout|t n result Hin _ _|t n e Hin _
                 |t n result evs r Hin _ _ _ IH].
  - unfold fetches. simpl. lia.
  - unfold fetches. simpl.
    assert (1 <= (start_time + minutes * 60 - t + 4) / 5)
      by (apply Z.div_le_lower_bound; lia).
    lia.
  - unfold fetches. simpl.
    assert (1 <= (start_time + minutes * 60 - t + 4) / 5)
      by (apply Z.div_le_lower_bound; lia).
    lia.
  - change (Ev n t (Get url hdrs)
              :: Ev (S n) (t + Z.of_N (elapsed (respond env n))) (Sleep 5) :: evs)
      with ([Ev n t (Get url hdrs);
             Ev (S n) (t + Z.of_N (elapsed (respond env n))) (Sleep 5)] ++ evs).
    rewrite fetches_app. unfold fetches at 1. simpl.
    assert (1 <= (start_time + minutes * 60 - t + 4) / 5) as Hone
      by (apply Z.div_le_lower_bound; lia).
    assert ((start_time + minutes * 60
             - (t + Z.of_N (elapsed (respond env n)) + 5
                + Z.of_N (oversleep env (S n))) + 4) / 5
            <= (start_time + minutes * 60 - t + 4) / 5 - 1) as Hless.
    { replace ((start_time + minutes * 60 - t + 4) / 5 - 1)
        with ((start_time + minutes * 60 - t + 4 + (-1) * 5) / 5)
        by (rewrite Z.div_add by lia; lia).
      apply Z.div_le_mono; lia. }
    lia.
Qed.

(** A poll fetches the status at most 12 times per minute of its timeout,
    and not at all when the timeout is zero or negative. *)
Theorem poll_fetches_at_most report_id group_id export_id minutes w :
  (fetches (journal (snd (poll_export_request env self report_id group_id
                            export_id minutes w)))
   <= fetches (journal w) + Z.to_nat (12 * minutes))%nat.
Proof.
  destruct (poll_export_request_shape env self report_id group_id export_id minutes w)
    as (evs & Hj & Hshape).
  rewrite Hj, fetches_app. apply poll_shape_fetches in Hshape.
  replace ((now w + minutes * 60 - now w + 4) / 5) with (12 * minutes) in Hshape.
  - lia.
  - replace (now w + minutes * 60 - now w + 4) with (4 + 12 * minutes * 5) by lia.
    rewrite Z.div_add by lia. reflexivity.
Qed.

Lemma poll_loop_gives_up_late url start_time minutes fuel :
  forall w w',
    poll_loop env self fuel url start_time minutes w = Some (inr PyNone, w') ->
    start_time + minutes * 60 <= now w'.
Proof.
  induction fuel as [|fuel IH]; intros w w' H; [done|].
  simpl in H. destruct (Z.ltb_spec (now w - start_time) (minutes * 60)) as [Hlt|Hge].
  - rewrite poll_once_eq in H.
    destruct (snapshot_of (result_of (respond env (step w)))) as [e|result] eqn:Hsnap;
      [done|].
    destruct (snapshot_of_dict _ _ Hsnap) as (items & s & -> & Hs).
    rewrite Hs in H. destruct (Py.in_strs s terminal_states); [done|].
    by apply IH in H.
  - simplify_eq. lia.
Qed.

(** A poll gives up, returning [None], only once the timeout has elapsed
    on the clock since the poll started. *)
Theorem poll_gives_up_only_after_timeout report_id group_id export_id minutes w w' :
  poll_export_request env self report_id group_id export_id minutes w
    = (inr PyNone, w') ->
  now w + minutes * 60 <= now w'.
Proof.
  intros H.
  destruct (poll_export_request_eq env self report_id group_id export_id minutes w)
    as (r & Hloop & Hr).
  rewrite H in Hr. subst r. eapply poll_loop_gives_up_late, Hloop.
Qed.

(** ** Fetching the file *)

(** A snapshot without [resourceLocation], or whose [resourceLocation] is
    no string, raises before any request is made.  A snapshot without
    [reportName], or with it and without [resourceFileExtension], raises
    [KeyError] only after the file has been fetched: the bytes are
    dropped. *)
Theorem get_exported_file_failures report_id group_id items w :
  let run := get_exported_file env self report_id group_id (PyDict items) w in
  (Py.assoc "resourceLocation" items = None ->
   run = (inl (KeyError "resourceLocation"), w)) /\
  (forall v, Py.assoc "resourceLocation" items = Some v ->
     (forall location, v <> PyStr location) ->
     run = (inl TypeError, w)) /\
  (forall location status json content,
     Py.assoc "resourceLocation" items = Some (PyStr location) ->
     result_of (respond env (step w)) = Http status json content ->
     status < 400 ->
     let fetched := answered env (Get location (headers self)) w in
     (Py.assoc "reportName" items = None ->
      run = (inl (KeyError "reportName"), fetched)) /\
     (is_Some (Py.assoc "reportName" items) ->
      Py.assoc "resourceFileExtension" items = None ->
      run = (inl (KeyError "resourceFileExtension"), fetched))).
Proof.
  intros run. subst run.
  unfold get_exported_file, session_get, raise_for_status, response_read. run.
  split; [|split].
  - by intros ->.
  - intros v Hl Hv. rewrite Hl. simpl. destruct v; try done. by destruct (Hv s).
  - intros location status json content Hl Hanswer Hok. rewrite Hl. simpl.
    rewrite Hanswer. simpl. destruct (Z.leb_spec 400 status); [lia|]. simpl.
    split.
    + intros Hn. by rewrite Hn.
    + intros [name Hn] Hx. by rewrite Hn, Hx.
Qed.

(** ** The attempt loop *)

Section Invocation.

Variables (report_id group_id : string) (file_format : FileFormat)
          (polling_timeout_minutes : Z)
          (page_names : option (list string)) (url_filter : option string).

Local Abbreviation interpret := (interpret env self report_id group_id).
Local Abbreviation attempt_body :=
  (attempt_body env self report_id group_id file_format
     polling_timeout_minutes page_names url_filter).
Local Abbreviation export_attempt :=
  (export_attempt env self report_id group_id file_format
     polling_timeout_minutes page_names url_filter).
Local Abbreviation for_attempts :=
  (for_attempts env self report_id group_id file_format
     polling_timeout_minutes page_names url_filter).
Local Abbreviation export_power_bi_report :=
  (export_power_bi_report env self report_id group_id file_format
     polling_timeout_minutes page_names url_filter).
Local Abbreviation post_export_request :=
  (post_export_request env self report_id group_id file_format page_names url_filter).
Local Abbreviation poll_export_request :=
  (fun export_id =>
     poll_export_request env self report_id group_id export_id polling_timeout_minutes).
Local Abbreviation attempt_starts :=
  (attempt_starts env self report_id group_id file_format
     polling_timeout_minutes page_names url_filter).

Lemma float_limit_above_one : 1 < float_limit.
Proof. vm_compute. reflexivity. Qed.

(** The delay that [asyncio.sleep] makes of a value. *)
Lemma sleep_for_inv v w r w' :
  sleep_for env v w = (r, w') ->
  (w' = w /\ exists e, r = inl e) \/
  (exists d, r = inr tt /\ w' = slept env d w /\ d < float_limit /\
     (v = PyInt d \/ v = PyBool true /\ d = 1 \/ v = PyBool false /\ d = 0)).
Proof.
  pose proof float_limit_above_one as Hone.
  unfold sleep_for, asyncio_sleep, raise. intros H.
  destruct v as [|[]|d| | |]; simplify_eq; eauto 10.
  - destruct (Z.leb_spec float_limit 1); [lia|]. simplify_eq. right. exists 1. auto 10.
  - destruct (Z.leb_spec float_limit 0); [lia|]. simplify_eq. right. exists 0. auto 10.
  - destruct (Z.leb_spec float_limit d); simplify_eq; eauto 10.
Qed.

Lemma get_exported_file_inv items w r w' :
  get_exported_file env self report_id group_id (PyDict items) w = (r, w') ->
  (w' = w /\ exists e, r = inl e) \/
  (exists location,
     Py.assoc "resourceLocation" items = Some (PyStr location) /\
     w' = answered env (Get location (headers self)) w /\
     forall file, r = inr file ->
       exists status json,
         result_of (respond env (step w)) = Http status json (content file) /\
         status < 400).
Proof.
  unfold get_exported_file, session_get, raise_for_status, response_read. run.
  intros H.
  destruct (Py.assoc "resourceLocation" items) as [[| | |location| |]|];
    simpl in H; simplify_eq; eauto.
  right. exists location. split; [done|].
  destruct (result_of (respond env (step w))) as [fault|status json content];
    simpl in H; simplify_eq; [by split|].
  destruct (Z.leb_spec 400 status); simpl in H; simplify_eq; [by split|].
  destruct (Py.assoc "reportName" items); simpl in H; simplify_eq; [|by split].
  destruct (Py.assoc "resourceFileExtension" items); simpl in H; simplify_eq; [|by split].
  split; [done|]. intros file [= <-]. simpl. eauto.
Qed.

(** What [interpret] makes of a terminal snapshot, read backwards from its
    result. *)
Lemma interpret_inv items w f w' :
  terminal (PyDict items) ->
  interpret (PyDict items) w = (inr f, w') ->
  match f with
  | Returned None =>
      Py.assoc "status" items = Some (PyStr "Failed") /\
      Py.assoc "retryAfter" items = None /\ w' = w
  | NextAttempt =>
      Py.assoc "status" items = Some (PyStr "Failed") /\
      exists v d, Py.assoc "retryAfter" items = Some v /\
        (v = PyInt d \/ v = PyBool true /\ d = 1 \/ v = PyBool false /\ d = 0) /\
        d < float_limit /\
        w' = slept env d w
  | Returned (Some file) =>
      Py.assoc "status" items = Some (PyStr "Succeeded") /\
      exists location status json,
        Py.assoc "resourceLocation" items = Some (PyStr location) /\
        result_of (respond env (step w)) = Http status json (content file) /\
        status < 400 /\
        w' = answered env (Get location (headers self)) w
  end.
Proof.
  intros (items' & Heq & Hstatus) H. injection Heq as <-.
  unfold interpret in H. run.
  destruct Hstatus as [Hs|Hs]; rewrite Hs in H; simpl in H.
  - rewrite ?Hs in H. simpl in H.
    destruct (get_exported_file env self report_id group_id (PyDict items) w)
      as [[e|file] w1] eqn:Hget; simplify_eq.
    split; [done|].
    destruct (get_exported_file_inv _ _ _ _ Hget) as [(_ & e & [=])|(location & Hl & -> & Hfile)].
    destruct (Hfile file eq_refl) as (status & json & Hanswer & Hok).
    eauto 10.
  - destruct (Py.assoc "retryAfter" items) as [v|] eqn:Hr; simpl in H.
    + rewrite ?Hr in H. simpl in H.
      destruct (sleep_for env v w) as [[e|[]] w1] eqn:Hsleep; simplify_eq.
      split; [done|].
      destruct (sleep_for_inv _ _ _ _ Hsleep) as [(_ & e & [=])|(d & _ & -> & Hfloat & Hv)].
      eauto 10.
    + by simplify_eq.
Qed.

(** The world after [interpret]: untouched, or after one sleep, or after
    one fetch with the headers of the exporter. *)
Lemma interpret_delta export w r w' :
  interpret export w = (r, w') ->
  w' = w \/ (exists d, w' = slept env d w) \/
  (exists location, w' = answered env (Get location (headers self)) w).
Proof.
  unfold interpret. run. intros H.
  destruct export as [| | | | |items]; simpl in H; simplify_eq; auto.
  destruct (Py.assoc "status" items) as [s|] eqn:Hs; simpl in H; simplify_eq; auto.
  destruct (Py.eq_str s "Failed"); simpl in H.
  - destruct (Py.assoc "retryAfter" items) as [v|] eqn:Hr; simpl in H;
      simplify_eq; auto.
    rewrite ?Hr in H. simpl in H.
    destruct (sleep_for env v w) as [[e|[]] w1] eqn:Hsleep; simplify_eq;
      destruct (sleep_for_inv _ _ _ _ Hsleep) as [(-> & _)|(d & _ & -> & _)];
      eauto.
  - rewrite ?Hs in H. simpl in H.
    destruct (Py.eq_str s "Succeeded"); simpl in H;
      simplify_eq; auto.
    destruct (get_exported_file env self report_id group_id (PyDict items) w)
      as [[e|file] w1] eqn:Hget; simplify_eq;
      destruct (get_exported_file_inv _ _ _ _ Hget)
        as [(-> & _)|(location & _ & -> & _)]; eauto.
Qed.

Lemma attempt_body_inv w f w' :
  attempt_body w = (inr f, w') ->
  exists id w1 items w2,
    post_export_request w = (inr id, w1) /\
    poll_export_request id w1 = (inr (PyDict items), w2) /\
    terminal (PyDict items) /\
    interpret (PyDict items) w2 = (inr f, w').
Proof.
  intros H. unfold attempt_body, bind in H.
  destruct (post_export_request w) as [[e|id] w1] eqn:Hpost; [done|].
  destruct (poll_export_request id w1) as [[e|export] w2] eqn:Hpoll; [done|].
  assert (export = PyNone \/ terminal export) as [->|Hterminal].
  { destruct (poll_export_request_shape env self report_id group_id id
                polling_timeout_minutes w1) as (evs & _ & Hshape).
    rewrite Hpoll in Hshape. eapply poll_shape_result, Hshape. }
  - done.
  - destruct Hterminal as (items & -> & Hstatus).
    exists id, w1, items, w2. repeat split; try done. by exists items.
Qed.

(** How the [try] statement ends: as its block, or by the handler after the
    block has raised. *)
Lemma export_attempt_inv attempt w r w' :
  export_attempt attempt w = (r, w') ->
  (exists f, r = inr f /\ attempt_body w = (inr f, w')) \/
  (exists e w1,
     attempt_body w = (inl e, w1) /\
     w' = wrote (PrintedError (attempt + 1) e) w1 /\
     r = if attempt =? max_retries - 1 then inl e else inr NextAttempt).
Proof.
  intros H. destruct (attempt_body w) as [[e|f] w1] eqn:Hbody.
  - rewrite (export_attempt_raise _ _ _ _ _ _ _ _ _ _ _ _ Hbody) in H.
    simplify_eq. right. eauto.
  - rewrite (export_attempt_done _ _ _ _ _ _ _ _ _ _ _ _ Hbody) in H.
    simplify_eq. left. eauto.
Qed.

Lemma export_attempt_submits attempt w r w' :
  export_attempt attempt w = (r, w') ->
  submissions (journal w') = S (submissions (journal w)).
Proof.
  intros H.
  destruct (export_attempt_journal _ _ _ _ _ _ _ _ _ _ _ _ H) as (evs & Hj & Hq).
  rewrite Hj, submissions_app. unfold submissions at 2. simpl.
  fold (submissions evs). lia.
Qed.

(** The three turns of the loop, one after the other. *)
Lemma export_power_bi_report_turns w0 :
  export_power_bi_report w0
  = match export_attempt 0 w0 with
    | (inl e, w1) => (inl e, w1)
    | (inr (Returned v), w1) => (inr v, w1)
    | (inr NextAttempt, w1) =>
        match export_attempt 1 w1 with
        | (inl e, w2) => (inl e, w2)
        | (inr (Returned v), w2) => (inr v, w2)
        | (inr NextAttempt, w2) =>
            match export_attempt 2 w2 with
            | (inl e, w3) => (inl e, w3)
            | (inr (Returned v), w3) => (inr v, w3)
            | (inr NextAttempt, w3) => (inr None, w3)
            end
        end
    end.
Proof.
  unfold export_power_bi_report. change (seqZ 0 max_retries) with [0; 1; 2].
  cbn [for_attempts]. unfold bind, ret.
  destruct (export_attempt 0 w0) as [[e|[v|]] w1]; try done.
  destruct (export_attempt 1 w1) as [[e|[v|]] w2]; try done.
  by destruct (export_attempt 2 w2) as [[e|[v|]] w3].
Qed.

(** An exception reaches the caller only from the third attempt: by then
    the invocation has made exactly three submissions, and the exception
    is the one the [try] block of the third attempt raised, printed as the
    error of attempt 3. *)
Theorem exception_only_from_last_attempt w0 e w' :
  export_power_bi_report w0 = (inl e, w') ->
  submissions (journal w') = (submissions (journal w0) + 3)%nat /\
  exists w2 w3,
    attempt_body w2 = (inl e, w3) /\ w' = wrote (PrintedError 3 e) w3.
Proof.
  rewrite export_power_bi_report_turns. intros H.
  destruct (export_attempt 0 w0) as [[e0|[v|]] w1] eqn:H0; simplify_eq.
  { destruct (export_attempt_inv _ _ _ _ H0) as [(f & [=] & _)|(e1 & w & _ & _ & [=])]. }
  destruct (export_attempt 1 w1) as [[e1|[v|]] w2] eqn:H1; simplify_eq.
  { destruct (export_attempt_inv _ _ _ _ H1) as [(f & [=] & _)|(e2 & w & _ & _ & [=])]. }
  destruct (export_attempt 2 w2) as [[e2|[v|]] w3] eqn:H2; simplify_eq.
  apply export_attempt_submits in H0, H1. pose proof (export_attempt_submits _ _ _ _ H2).
  split; [lia|].
  destruct (export_attempt_inv _ _ _ _ H2) as [(f & [=] & _)|(e3 & w & Hbody & -> & [= ->])].
  eauto.
Qed.

Lemma returned_none_inv attempt w w' :
  export_attempt attempt w = (inr (Returned None), w') ->
  exists id w1 items,
    post_export_request w = (inr id, w1) /\
    poll_export_request id w1 = (inr (PyDict items), w') /\
    Py.assoc "status" items = Some (PyStr "Failed") /\
    Py.assoc "retryAfter" items = None.
Proof.
  intros Hattempt.
  destruct (export_attempt_inv _ _ _ _ Hattempt)
    as [(f' & [= <-] & Hbody)|(e & w3 & _ & _ & Hr)];
    [|by destruct (attempt =? max_retries - 1)].
  destruct (attempt_body_inv _ _ _ Hbody)
    as (id & w1 & items & w2 & Hpost & Hpoll & Hterminal & Hinterpret).
  destruct (interpret_inv _ _ _ _ Hterminal Hinterpret) as (Hs & Hr & ->).
  by exists id, w1, items.
Qed.

Lemma last_next_attempt_inv w w' :
  export_attempt (max_retries - 1) w = (inr NextAttempt, w') ->
  exists id w1 items w2 v d,
    post_export_request w = (inr id, w1) /\
    poll_export_request id w1 = (inr (PyDict items), w2) /\
    Py.assoc "status" items = Some (PyStr "Failed") /\
    Py.assoc "retryAfter" items = Some v /\
    (v = PyInt d \/ v = PyBool true /\ d = 1 \/ v = PyBool false /\ d = 0) /\
    d < float_limit /\
    w' = slept env d w2.
Proof.
  intros Hattempt.
  destruct (export_attempt_inv _ _ _ _ Hattempt)
    as [(f' & [= <-] & Hbody)|(e & w3 & _ & _ & Hr)]; [|done].
  destruct (attempt_body_inv _ _ _ Hbody)
    as (id & w1 & items & w2 & Hpost & Hpoll & Hterminal & Hinterpret).
  destruct (interpret_inv _ _ _ _ Hterminal Hinterpret)
    as (Hs & v & d & Hr & Hv & Hfloat & ->).
  by exists id, w1, items, w2, v, d.
Qed.

(** The invocation returns [None] only when the attempt it ends with has
    received a Failed snapshot.  Either the snapshot has no [retryAfter],
    and the invocation ends where the snapshot was received; or the attempt
    is the third one, the [retryAfter] of the snapshot is a number within
    the range of float, and the invocation ends after the sleep of that
    delay.  A poll that timed out never leads to [None]. *)
Theorem none_only_after_failed w0 w' :
  export_power_bi_report w0 = (inr None, w') ->
  exists attempt w id w1 items w2,
    attempt_starts w0 attempt w /\
    post_export_request w = (inr id, w1) /\
    poll_export_request id w1 = (inr (PyDict items), w2) /\
    Py.assoc "status" items = Some (PyStr "Failed") /\
    (Py.assoc "retryAfter" items = None /\ w' = w2 \/
     attempt = max_retries - 1 /\
     exists v d,
       Py.assoc "retryAfter" items = Some v /\
       (v = PyInt d \/ v = PyBool true /\ d = 1 \/ v = PyBool false /\ d = 0) /\
       d < float_limit /\
       w' = slept env d w2).
Proof.
  assert (forall attempt w,
            attempt_starts w0 attempt w ->
            export_attempt attempt w = (inr (Returned None), w') ->
            exists attempt w id w1 items w2,
              attempt_starts w0 attempt w /\
              post_export_request w = (inr id, w1) /\
              poll_export_request id w1 = (inr (PyDict items), w2) /\
              Py.assoc "status" items = Some (PyStr "Failed") /\
              (Py.assoc "retryAfter" items = None /\ w' = w2 \/
               attempt = max_retries - 1 /\
               exists v d,
                 Py.assoc "retryAfter" items = Some v /\
                 (v = PyInt d \/ v = PyBool true /\ d = 1
                  \/ v = PyBool false /\ d = 0) /\
                 d < float_limit /\
                 w' = slept env d w2)) as Hreturned.
  { intros attempt w Hstarts Hattempt.
    destruct (returned_none_inv _ _ _ Hattempt) as (id & w1 & items & Hpost & Hpoll & Hs & Hr).
    exists attempt, w, id, w1, items, w'. auto 10. }
  rewrite export_power_bi_report_turns. intros H.
  pose proof (starts_first env self report_id group_id file_format
                polling_timeout_minutes page_names url_filter w0) as Hfirst.
  destruct (export_attempt 0 w0) as [[e0|[v|]] w1] eqn:H0; simplify_eq.
  { by apply (Hreturned 0 w0). }
  pose proof (starts_next _ _ _ _ _ _ _ _ _ 0 w0 w1 Hfirst eq_refl H0) as Hsecond.
  destruct (export_attempt 1 w1) as [[e1|[v|]] w2] eqn:H1; simplify_eq.
  { by apply (Hreturned (0 + 1) w1). }
  pose proof (starts_next _ _ _ _ _ _ _ _ _ (0 + 1) w1 w2 Hsecond eq_refl H1) as Hthird.
  destruct (export_attempt 2 w2) as [[e2|[v|]] w3] eqn:H2; simplify_eq.
  { by apply (Hreturned (0 + 1 + 1) w2). }
  destruct (last_next_attempt_inv _ _ H2)
    as (id & w4 & items & w5 & v & d & Hpost & Hpoll & Hs & Hr & Hv & Hfloat & ->).
  exists (0 + 1 + 1), w2, id, w4, items, w5.
  split; [done|]. split; [done|]. split; [done|]. split; [done|].
  right. split; [done|]. by exists v, d.
Qed.

(** The invocation returns a file only from a Succeeded snapshot: the
    bytes are the body of the answer, below status 400, to the fetch of the
    [resourceLocation] of that snapshot, and that fetch is the last effect
    of the invocation. *)
Theorem file_only_after_succeeded w0 file w' :
  export_power_bi_report w0 = (inr (Some file), w') ->
  exists w id w1 items w2 location status json,
    post_export_request w = (inr id, w1) /\
    poll_export_request id w1 = (inr (PyDict items), w2) /\
    Py.assoc "status" items = Some (PyStr "Succeeded") /\
    Py.assoc "resourceLocation" items = Some (PyStr location) /\
    result_of (respond env (step w2)) = Http status json (content file) /\
    status < 400 /\
    journal w' = journal w2 ++ [Ev (step w2) (now w2) (Get location (headers self))].
Proof.
  assert (forall attempt w,
            export_attempt attempt w = (inr (Returned (Some file)), w') ->
            exists w id w1 items w2 location status json,
              post_export_request w = (inr id, w1) /\
              poll_export_request id w1 = (inr (PyDict items), w2) /\
              Py.assoc "status" items = Some (PyStr "Succeeded") /\
              Py.assoc "resourceLocation" items = Some (PyStr location) /\
              result_of (respond env (step w2)) = Http status json (content file) /\
              status < 400 /\
              journal w' = journal w2
                ++ [Ev (step w2) (now w2) (Get location (headers self))])
    as Hlast.
  { intros attempt w Hattempt.
    destruct (export_attempt_inv _ _ _ _ Hattempt)
      as [(f' & [= <-] & Hbody)|(e & w3 & _ & _ & Hr)];
      [|by destruct (attempt =? max_retries - 1)].
    destruct (attempt_body_inv _ _ _ Hbody)
      as (id & w2 & items & w3 & Hpost & Hpoll & Hterminal & Hinterpret).
    destruct (interpret_inv _ _ _ _ Hterminal Hinterpret)
      as (Hs & location & status & json & Hl & Hanswer & Hok & ->).
    exists w, id, w2, items, w3, location, status, json. by repeat split. }
  rewrite export_power_bi_report_turns. intros H.
  destruct (export_attempt 0 w0) as [[e0|[v|]] w1] eqn:H0; simplify_eq.
  { eapply Hlast; eauto. }
  destruct (export_attempt 1 w1) as [[e1|[v|]] w2] eqn:H1; simplify_eq.
  { eapply Hlast; eauto. }
  destruct (export_attempt 2 w2) as [[e2|[v|]] w3] eqn:H2; simplify_eq.
  eapply Hlast; eauto.
Qed.

(** ** Edge cases of the attempt loop *)

Lemma poll_without_timeout export_id w :
  polling_timeout_minutes <= 0 ->
  poll_export_request export_id w = (inr PyNone, w).
Proof.
  intros Hm. cbv beta.
  destruct (poll_export_request_eq env self report_id group_id export_id
              polling_timeout_minutes w) as (r & Hloop & ->).
  unfold poll_fuel in Hloop. simpl in Hloop.
  destruct (Z.ltb_spec (now w - now w) (polling_timeout_minutes * 60)); [lia|].
  by simplify_eq.
Qed.

Lemma counts_answered a w :
  fetches (journal (answered env a w))
    = (fetches (journal w) + if is_get (Ev (step w) (now w) a) then 1 else 0)%nat /\
  submissions (journal (answered env a w))
    = (submissions (journal w) + if is_post (Ev (step w) (now w) a) then 1 else 0)%nat.
Proof.
  unfold answered, record. simpl. rewrite fetches_app, submissions_app.
  unfold fetches at 2, submissions at 2. simpl.
  split; [by destruct (is_get _)|by destruct (is_post _)].
Qed.

Lemma counts_wrote p w :
  fetches (journal (wrote p w)) = fetches (journal w) /\
  submissions (journal (wrote p w)) = submissions (journal w).
Proof.
  unfold wrote, record. simpl. rewrite fetches_app, submissions_app.
  unfold fetches at 2, submissions at 2. simpl. lia.
Qed.

Lemma counts_slept d w :
  fetches (journal (slept env d w)) = fetches (journal w) /\
  submissions (journal (slept env d w)) = submissions (journal w).
Proof.
  unfold slept, record. simpl. rewrite fetches_app, submissions_app.
  unfold fetches at 2, submissions at 2. simpl. lia.
Qed.

(** With a timeout of zero or less no status is ever fetched, and every
    [try] block raises: by the submission, or else by the test
    ['retryAfter' in export] on the [None] of the poll. *)
Lemma attempt_body_without_timeout w :
  polling_timeout_minutes <= 0 ->
  exists e w',
    attempt_body w = (inl e, w') /\
    submissions (journal w') = S (submissions (journal w)) /\
    fetches (journal w') = fetches (journal w).
Proof.
  intros Hm. unfold attempt_body, bind.
  rewrite post_export_request_eq.
  set (w1 := answered env _ _).
  assert (submissions (journal w1) = S (submissions (journal w)) /\
          fetches (journal w1) = fetches (journal w)) as [Hs Hf].
  { subst w1.
    destruct (counts_answered
                (Post (export_to_url self report_id group_id) (headers self)
                   (export_data file_format page_names url_filter))
                (wrote (PrintedUrl (export_to_url self report_id group_id)) w))
      as [-> ->].
    destruct (counts_wrote (PrintedUrl (export_to_url self report_id group_id)) w)
      as [-> ->]. simpl. lia. }
  destruct (handle_of (result_of (respond env (step w)))) as [e|id]; [by eauto|].
  rewrite (poll_without_timeout id w1 Hm). by exists TypeError, w1.
Qed.

(** With a timeout of zero or less an invocation never returns: it makes
    its three submissions, fetches nothing, and raises. *)
Theorem nothing_returned_without_timeout w0 :
  polling_timeout_minutes <= 0 ->
  exists e w',
    export_power_bi_report w0 = (inl e, w') /\
    submissions (journal w') = (submissions (journal w0) + 3)%nat /\
    fetches (journal w') = fetches (journal w0).
Proof.
  intros Hm. rewrite export_power_bi_report_turns.
  destruct (attempt_body_without_timeout w0 Hm) as (e0 & w1 & H0 & Hs0 & Hf0).
  rewrite (export_attempt_raise _ _ _ _ _ _ _ _ 0 _ _ _ H0). simpl.
  set (w1' := wrote _ w1).
  destruct (attempt_body_without_timeout w1' Hm) as (e1 & w2 & H1 & Hs1 & Hf1).
  rewrite (export_attempt_raise _ _ _ _ _ _ _ _ 1 _ _ _ H1). simpl.
  set (w2' := wrote _ w2).
  destruct (attempt_body_without_timeout w2' Hm) as (e2 & w3 & H2 & Hs2 & Hf2).
  rewrite (export_attempt_raise _ _ _ _ _ _ _ _ 2 _ _ _ H2). simpl.
  eexists _, _. split; [reflexivity|].
  destruct (counts_wrote (PrintedError (0 + 1) e0) w1) as [Hf0' Hs0'].
  destruct (counts_wrote (PrintedError (1 + 1) e1) w2) as [Hf1' Hs1'].
  destruct (counts_wrote (PrintedError (2 + 1) e2) w3) as [Hf2' Hs2'].
  fold w1' in Hf0', Hs0'. fold w2' in Hf1', Hs1'. lia.
Qed.

(** On the third attempt too a Failed snapshot with [retryAfter = R], [R]
    within the range of float, is waited for: the invocation sleeps [R],
    and only then returns [None]. *)
Theorem last_attempt_sleeps_before_none w id w1 items R w2 :
  post_export_request w = (inr id, w1) ->
  poll_export_request id w1 = (inr (PyDict items), w2) ->
  Py.assoc "status" items = Some (PyStr "Failed") ->
  Py.assoc "retryAfter" items = Some (PyInt R) ->
  R < float_limit ->
  for_attempts (attempts_from (max_retries - 1)) w = (inr None, slept env R w2) /\
  now w2 + R <= now (slept env R w2) /\
  journal (slept env R w2) = journal w2 ++ [Ev (step w2) (now w2) (Sleep R)].
Proof.
  intros Hpost Hpoll Hs Hr Hfloat.
  assert (attempt_body w = (inr NextAttempt, slept env R w2)) as Hbody.
  { rewrite (attempt_body_step _ _ _ _ _ _ _ _ _ _ _ _ _ Hpost Hpoll).
    by apply interpret_failed_retry. }
  split; [|split; [simpl; lia|done]].
  change (attempts_from (max_retries - 1)) with [2]. cbn [for_attempts].
  unfold bind. by rewrite (export_attempt_done _ _ _ _ _ _ _ _ 2 _ _ _ Hbody).
Qed.

(** A Failed snapshot whose [retryAfter] is no number (a string, null, a
    list, a dictionary) makes the [try] block raise [TypeError] where the
    snapshot was received: nothing is slept, and the handler treats it as
    any exception. *)
Theorem retry_after_not_a_number attempt w id w1 items v w2 :
  post_export_request w = (inr id, w1) ->
  poll_export_request id w1 = (inr (PyDict items), w2) ->
  Py.assoc "status" items = Some (PyStr "Failed") ->
  Py.assoc "retryAfter" items = Some v ->
  (forall d, v <> PyInt d) ->
  (forall b, v <> PyBool b) ->
  attempt_body w = (inl TypeError, w2) /\
  export_attempt attempt w
  = (if attempt =? max_retries - 1 then inl TypeError else inr NextAttempt,
     wrote (PrintedError (attempt + 1) TypeError) w2).
Proof.
  intros Hpost Hpoll Hs Hr Hint Hbool.
  assert (attempt_body w = (inl TypeError, w2)) as Hbody.
  { rewrite (attempt_body_step _ _ _ _ _ _ _ _ _ _ _ _ _ Hpost Hpoll).
    unfold interpret. run. rewrite Hs. simpl. rewrite Hr. simpl. rewrite ?Hr. simpl.
    destruct v as [|b|d| | |]; try done; [by destruct (Hbool b)|by destruct (Hint d)]. }
  split; [done|]. by apply export_attempt_raise.
Qed.

(** A Failed snapshot whose [retryAfter] is an integer beyond the range of
    float (from [2^1024 - 2^970] on) makes the [try] block raise
    [OverflowError] where the snapshot was received: nothing is slept, and
    the handler treats it as any exception. *)
Theorem retry_after_beyond_float attempt w id w1 items R w2 :
  post_export_request w = (inr id, w1) ->
  poll_export_request id w1 = (inr (PyDict items), w2) ->
  Py.assoc "status" items = Some (PyStr "Failed") ->
  Py.assoc "retryAfter" items = Some (PyInt R) ->
  2 ^ 1024 - 2 ^ 970 <= R ->
  attempt_body w = (inl OverflowError, w2) /\
  export_attempt attempt w
  = (if attempt =? max_retries - 1 then inl OverflowError else inr NextAttempt,
     wrote (PrintedError (attempt + 1) OverflowError) w2).
Proof.
  intros Hpost Hpoll Hs Hr Hfloat.
  assert (attempt_body w = (inl OverflowError, w2)) as Hbody.
  { rewrite (attempt_body_step _ _ _ _ _ _ _ _ _ _ _ _ _ Hpost Hpoll).
    eapply interpret_failed_overflow; [exact Hs|exact Hr|exact Hfloat]. }
  split; [done|]. by apply export_attempt_raise.
Qed.

(** ** Every request of an invocation *)

Lemma poll_shape_expected hdrs url start_time minutes t n evs r post_url data :
  poll_shape env hdrs url start_time minutes t n evs r ->
  Forall (expected hdrs post_url data) evs.
Proof. induction 1; repeat constructor; done. Qed.

Lemma expected_authorized hdrs url data evs :
  Forall (expected hdrs url data) evs -> Forall (authorized hdrs) evs.
Proof.
  intros H. eapply Forall_impl; [exact H|].
  intros [n t a]. unfold expected, authorized. simpl.
  destruct a; try done. by intros (_ & -> & _).
Qed.

Lemma poll_fetches_bound export_id w :
  (fetches (journal (snd (poll_export_request export_id w)))
   <= fetches (journal w) + Z.to_nat (12 * polling_timeout_minutes))%nat.
Proof.
  destruct (poll_export_request_shape env self report_id group_id export_id
              polling_timeout_minutes w) as (evs & Hj & Hshape).
  cbv beta. rewrite Hj, fetches_app. apply poll_shape_fetches in Hshape.
  replace ((now w + polling_timeout_minutes * 60 - now w + 4) / 5)
    with (12 * polling_timeout_minutes) in Hshape; [lia|].
  replace (now w + polling_timeout_minutes * 60 - now w + 4)
    with (4 + 12 * polling_timeout_minutes * 5) by lia.
  rewrite Z.div_add by lia. reflexivity.
Qed.

(** The effects of one [try] block: requests with the headers of the
    exporter, and among them at most one fetch more than the poll may
    make. *)
Lemma attempt_body_effects w r w' :
  attempt_body w = (r, w') ->
  exists evs,
    journal w' = journal w ++ evs /\
    Forall (expected (headers self) (export_to_url self report_id group_id)
              (export_data file_format page_names url_filter)) evs /\
    (fetches evs <= Z.to_nat (12 * polling_timeout_minutes) + 1)%nat.
Proof.
  intros H. unfold attempt_body, bind in H.
  destruct (post_export_request w) as [[e|id] w1] eqn:Hpost;
    pose proof (post_export_request_journal _ _ _ _ _ _ _ _ _ _ Hpost) as Hj1;
    simpl in Hj1.
  { simplify_eq. eexists. split; [exact Hj1|]. split.
    - by repeat constructor.
    - unfold fetches. simpl. lia. }
  pose proof (poll_export_request_shape env self report_id group_id id
                polling_timeout_minutes w1) as (evs2 & Hj2 & Hshape).
  pose proof (poll_fetches_bound id w1) as Hcount.
  destruct (poll_export_request id w1) as [[e|export] w2] eqn:Hpoll; simpl in *.
  { simplify_eq. eexists ([_; _] ++ evs2). split.
    - rewrite Hj2, Hj1. by rewrite <- app_assoc.
    - split.
      + apply Forall_app. split; [by repeat constructor|].
        eapply poll_shape_expected, Hshape.
      + rewrite Hj2, !fetches_app in Hcount. rewrite fetches_app.
        unfold fetches at 1. simpl. lia. }
  assert (exists evs3, journal w' = journal w2 ++ evs3 /\
            Forall (expected (headers self) (export_to_url self report_id group_id)
                      (export_data file_format page_names url_filter)) evs3 /\ (fetches evs3 <= 1)%nat)
    as (evs3 & Hj3 & Hauth3 & Hcount3).
  { destruct (interpret_delta _ _ _ _ H) as [->|[(d & ->)|(location & ->)]].
    - exists []. split; [by rewrite app_nil_r|]. split; [apply List.Forall_nil|unfold fetches; simpl; lia].
    - eexists [_]. split; [reflexivity|]. split; [by repeat constructor|unfold fetches; simpl; lia].
    - eexists [_]. split; [reflexivity|]. split; [by repeat constructor|unfold fetches; simpl; lia]. }
  eexists ([_; _] ++ evs2 ++ evs3). split.
  - rewrite Hj3, Hj2, Hj1. by rewrite <- !app_assoc.
  - split.
    + apply Forall_app. split; [by repeat constructor|].
      apply Forall_app. split; [eapply poll_shape_expected, Hshape|done].
    + rewrite Hj2, !fetches_app in Hcount. rewrite !fetches_app.
      unfold fetches at 1. simpl. lia.
Qed.

Lemma export_attempt_effects attempt w r w' :
  export_attempt attempt w = (r, w') ->
  exists evs,
    journal w' = journal w ++ evs /\
    Forall (expected (headers self) (export_to_url self report_id group_id)
              (export_data file_format page_names url_filter)) evs /\
    (fetches evs <= Z.to_nat (12 * polling_timeout_minutes) + 1)%nat.
Proof.
  intros H.
  destruct (export_attempt_inv _ _ _ _ H)
    as [(f & _ & Hbody)|(e & w1 & Hbody & -> & _)];
    destruct (attempt_body_effects _ _ _ Hbody) as (evs & Hj & Hauth & Hcount).
  - eauto.
  - exists (evs ++ [Ev (step w1) (now w1) (Print (PrintedError (attempt + 1) e))]).
    split; [|split].
    + unfold wrote, record. simpl. by rewrite Hj, <- app_assoc.
    + apply Forall_app. split; [done|by repeat constructor].
    + rewrite fetches_app. unfold fetches at 2. simpl. lia.
Qed.

Lemma for_attempts_effects attempts :
  forall w, exists evs,
    journal (snd (for_attempts attempts w)) = journal w ++ evs /\
    Forall (expected (headers self) (export_to_url self report_id group_id)
              (export_data file_format page_names url_filter)) evs /\
    (fetches evs
     <= length attempts * (Z.to_nat (12 * polling_timeout_minutes) + 1))%nat.
Proof.
  induction attempts as [|attempt rest IH]; intros w; simpl.
  { exists []. split; [by rewrite app_nil_r|]. split; [apply List.Forall_nil|unfold fetches; simpl; lia]. }
  unfold bind.
  destruct (export_attempt attempt w) as [r w1] eqn:Hattempt.
  destruct (export_attempt_effects _ _ _ _ Hattempt) as (evs1 & Hj1 & Hauth1 & Hcount1).
  destruct r as [e|[v|]]; simpl.
  - exists evs1. repeat split; [done|done|lia].
  - exists evs1. repeat split; [done|done|lia].
  - destruct (IH w1) as (evs2 & Hj2 & Hauth2 & Hcount2).
    exists (evs1 ++ evs2). split; [|split].
    + by rewrite Hj2, Hj1, <- app_assoc.
    + by apply Forall_app.
    + rewrite fetches_app. lia.
Qed.

(** An invocation fetches at most three times what a poll may fetch and a
    file: at most [3 * (12 * polling_timeout_minutes + 1)] fetches. *)
Theorem invocation_fetches_at_most w0 :
  (fetches (journal (snd (export_power_bi_report w0)))
   <= fetches (journal w0)
      + 3 * (Z.to_nat (12 * polling_timeout_minutes) + 1))%nat.
Proof.
  destruct (for_attempts_effects (seqZ 0 max_retries) w0) as (evs & Hj & _ & Hcount).
  unfold export_power_bi_report. rewrite Hj, fetches_app.
  change (length (seqZ 0 max_retries)) with 3%nat in Hcount. lia.
Qed.

(** Every submission of an invocation, the first and the repeated ones,
    posts the same body to the same [ExportTo] address. *)
Theorem every_submission_is_the_same w0 :
  exists evs,
    journal (snd (export_power_bi_report w0)) = journal w0 ++ evs /\
    Forall (fun e =>
              forall url hdrs data, ev_action e = Post url hdrs data ->
                url = base_url self +:+ "/groups/" +:+ group_id +:+ "/reports/"
                        +:+ report_id +:+ "/ExportTo" /\
                data = export_data file_format page_names url_filter) evs.
Proof.
  destruct (for_attempts_effects (seqZ 0 max_retries) w0) as (evs & Hj & Hexpected & _).
  exists evs. split; [done|]. eapply Forall_impl; [exact Hexpected|].
  intros [n t a] He url hdrs data Ha. simpl in Ha. subst a.
  unfold expected in He. simpl in He. by destruct He as (-> & _ & ->).
Qed.

End Invocation.

Lemma poll_shape_last hdrs url start_time minutes t n evs result :
  poll_shape env hdrs url start_time minutes t n evs (inr result) ->
  result <> PyNone ->
  exists evs' n' t' status content,
    evs = evs' ++ [Ev n' t' (Get url hdrs)] /\
    result_of (respond env n') = Http status (inr result) content /\
    status < 400.
Proof.
  intros Hshape Hresult. remember (inr result) as r eqn:Hr.
  induction Hshape as [t n Hout|t n result' Hin Hsnap _|t n e Hin _
                      |t n result' evs r Hin _ _ _ IH]; simplify_eq.
  - exists [], n, t.
    unfold snapshot_of in Hsnap.
    destruct (result_of (respond env n)) as [fault|status json content]; [done|].
    destruct (Z.leb_spec 400 status); [done|].
    destruct json as [e|[| | | | |items]]; try done.
    destruct (Py.assoc "status" items); simplify_eq. eauto.
  - destruct (IH eq_refl) as (evs' & n' & t' & status & content & -> & Hanswer & Hok).
    exists (Ev n t (Get url hdrs)
              :: Ev (S n) (t + Z.of_N (elapsed (respond env n))) (Sleep 5) :: evs'),
      n', t', status, content.
    by repeat split.
Qed.

(** A snapshot that a poll returns is the decoded body, unchanged, of the
    answer to its last fetch, and that answer had a status below 400. *)
Theorem poll_returns_last_answer report_id group_id export_id minutes w result w' :
  poll_export_request env self report_id group_id export_id minutes w
    = (inr result, w') ->
  result <> PyNone ->
  exists evs n t status content,
    journal w' = journal w ++ evs
      ++ [Ev n t (Get (export_status_url self report_id group_id export_id)
                    (headers self))] /\
    result_of (respond env n) = Http status (inr result) content /\
    status < 400.
Proof.
  intros Hpoll Hresult.
  destruct (poll_export_request_shape env self report_id group_id export_id minutes w)
    as (evs & Hj & Hshape).
  rewrite Hpoll in Hj, Hshape. simpl in Hj, Hshape.
  destruct (poll_shape_last _ _ _ _ _ _ _ _ Hshape Hresult)
    as (evs' & n & t & status & content & -> & Hanswer & Hok).
  by exists evs', n, t, status, content.
Qed.

End More.

(** Every request that an invocation makes for an exporter built from an
    access token carries the two headers of that exporter, the bearer token
    and the JSON content type: the submissions, the status fetches, and
    the fetch of the file at the [resourceLocation] that the service
    named. *)
Theorem requests_carry_the_token env access_token base_url
    report_id group_id file_format polling_timeout_minutes page_names url_filter w0 :
  let self := init access_token base_url in
  let run := export_power_bi_report env self report_id group_id file_format
               polling_timeout_minutes page_names url_filter w0 in
  headers self !! "Authorization" = Some ("Bearer " +:+ access_token) /\
  headers self !! "Content-Type" = Some "application/json" /\
  (forall k, is_Some (headers self !! k) -> k = "Authorization" \/ k = "Content-Type") /\
  exists evs,
    journal (snd run) = journal w0 ++ evs /\
    Forall (authorized (headers self)) evs.
Proof.
  intros self run. split; [|split; [|split]].
  - unfold self, init. simpl. by simplify_map_eq.
  - unfold self, init. simpl. by simplify_map_eq.
  - intros k [v Hk]. unfold self, init in Hk. simpl in Hk.
    destruct (decide (k = "Authorization")) as [|Ha]; [by left|].
    destruct (decide (k = "Content-Type")) as [|Hc]; [by right|].
    by simplify_map_eq.
  - destruct (for_attempts_effects env self report_id group_id file_format
                polling_timeout_minutes page_names url_filter
                (seqZ 0 max_retries) w0) as (evs & Hj & Hexpected & _).
    exists evs. split; [done|]. eapply expected_authorized, Hexpected.
Qed.

(** * The further properties on concrete runs *)

Import Cases.

Lemma list_reports_value_witness :
  fst (list_reports (answering 200 one_report) me "W1" world0)
    = inr (PyList [PyDict [("id", PyStr "r1"); ("name", PyStr "Sales")]]) /\
  fst (list_reports (answering 200 (PyDict [])) me "W1" world0) = inr (PyList []).
Proof.
  split.
  - destruct (list_reports_value (answering 200 one_report) me "W1" world0 200
                [("value", PyList [PyDict [("id", PyStr "r1"); ("name", PyStr "Sales")]])]
                []) as (Hrun & _); [reflexivity|lia|].
    rewrite Hrun. reflexivity.
  - destruct (list_reports_value (answering 200 (PyDict [])) me "W1" world0 200 [] [])
      as (_ & _ & Hempty); [reflexivity|lia|].
    apply Hempty. reflexivity.
Defined.

Lemma list_reports_failures_witness :
  fst (list_reports (answering 404 (PyDict [])) me "W1" world0)
    = inl (Raised (ClientResponseError 404)) /\
  fst (list_reports (answering 200 (PyList [])) me "W1" world0) = inl AttributeError /\
  fst (list_reports garbled me "W1" world0) = inl (Raised JSONDecodeError).
Proof.
  split; [|split].
  - destruct (list_reports_failures (answering 404 (PyDict [])) me "W1" world0
                404 (inr (PyDict [])) []) as (Hbad & _); [reflexivity|].
    apply Hbad. lia.
  - destruct (list_reports_failures (answering 200 (PyList [])) me "W1" world0
                200 (inr (PyList [])) []) as (_ & _ & Hodd & _); [reflexivity|].
    apply (Hodd ltac:(lia) (PyList [])); [reflexivity|discriminate].
  - destruct (list_reports_failures garbled me "W1" world0
                200 (inl JSONDecodeError) []) as (_ & Hraised & _); [reflexivity|].
    apply (Hraised ltac:(lia) JSONDecodeError). reflexivity.
Defined.

Lemma export_data_entries_witness :
  export_data PNG (Some ["Cover"; "Detail"]) (Some "Region eq 1") !! "pageNames"
    = Some (PyList [PyStr "Cover"; PyStr "Detail"]) /\
  export_data PNG (Some ["Cover"; "Detail"]) (Some "Region eq 1") !! "urlFilter"
    = Some (PyStr "Region eq 1").
Proof.
  destruct (export_data_entries PNG (Some ["Cover"; "Detail"]) (Some "Region eq 1"))
    as (_ & Hpages & Hfilter).
  split.
  - apply (Hpages "Cover" ["Detail"]). reflexivity.
  - apply Hfilter; [reflexivity|discriminate].
Defined.

Lemma submit_body_failures_witness :
  fst (post_export_request (answering 200 (PyDict [("name", PyStr "x")])) me
         "R1" "W1" PNG None None world0) = inl (KeyError "id") /\
  fst (post_export_request garbled me "R1" "W1" PNG None None world0)
    = inl JSONDecodeError.
Proof.
  split.
  - destruct (submit_body_failures (answering 200 (PyDict [("name", PyStr "x")])) me
                "R1" "W1" PNG None None world0 200
                (inr (PyDict [("name", PyStr "x")])) [])
      as (Hmissing & _); [reflexivity|lia|].
    apply (Hmissing [("name", PyStr "x")]); reflexivity.
  - destruct (submit_body_failures garbled me "R1" "W1" PNG None None world0 200
                (inl JSONDecodeError) [])
      as (_ & _ & Hraised & _); [reflexivity|lia|].
    apply (Hraised JSONDecodeError). reflexivity.
Defined.

Lemma poll_gives_up_only_after_timeout_witness :
  now (submitted stalled) + 1 * 60 <= now (polled stalled 1).
Proof.
  apply (poll_gives_up_only_after_timeout stalled me "R1" "W1" (PyStr "E1") 1
           (submitted stalled) (polled stalled 1)).
  vm_compute. reflexivity.
Defined.

Lemma get_exported_file_failures_witness :
  get_exported_file sales me "R1" "W1" (PyDict [("status", PyStr "Succeeded")]) world0
    = (inl (KeyError "resourceLocation"), world0) /\
  get_exported_file (answering 200 (PyDict [])) me "R1" "W1" (PyDict nameless) world0
    = (inl (KeyError "reportName"),
       answered (answering 200 (PyDict [])) (Get "L" (headers me)) world0).
Proof.
  split.
  - destruct (get_exported_file_failures sales me "R1" "W1"
                [("status", PyStr "Succeeded")] world0) as (Hmissing & _).
    apply Hmissing. reflexivity.
  - destruct (get_exported_file_failures (answering 200 (PyDict [])) me "R1" "W1"
                nameless world0) as (_ & _ & Hfetched).
    destruct (Hfetched "L" 200 (inr (PyDict [])) []) as (Hname & _);
      [reflexivity|reflexivity|lia|].
    apply Hname. reflexivity.
Defined.

Lemma exception_only_from_last_attempt_witness :
  submissions
    (journal (snd (export_power_bi_report stalled me "R1" "W1" PNG 1 None None world0)))
  = 3%nat.
Proof.
  destruct (exception_only_from_last_attempt stalled me "R1" "W1" PNG 1 None None
              world0 TypeError
              (snd (export_power_bi_report stalled me "R1" "W1" PNG 1 None None world0)))
    as (Hthree & _); [vm_compute; reflexivity|].
  exact Hthree.
Defined.

Lemma none_only_after_failed_witness :
  exists attempt w id w1 items w2,
    attempt_starts broken me "R1" "W1" PNG 10 None None world0 attempt w /\
    post_export_request broken me "R1" "W1" PNG None None w = (inr id, w1) /\
    poll_export_request broken me "R1" "W1" id 10 w1 = (inr (PyDict items), w2) /\
    Py.assoc "status" items = Some (PyStr "Failed").
Proof.
  destruct (none_only_after_failed broken me "R1" "W1" PNG 10 None None
              world0 (polled broken 10))
    as (attempt & w & id & w1 & items & w2 & Hstarts & Hpost & Hpoll & Hs & _);
    [vm_compute; reflexivity|].
  exists attempt, w, id, w1, items, w2.
  split; [exact Hstarts|]. split; [exact Hpost|]. split; [exact Hpoll|exact Hs].
Defined.

Lemma file_only_after_succeeded_witness :
  exists items location,
    Py.assoc "status" items = Some (PyStr "Succeeded") /\
    Py.assoc "resourceLocation" items = Some (PyStr location).
Proof.
  destruct (file_only_after_succeeded sales me "R1" "W1" PNG 10 None None world0
              {| content := ["P"%byte; "N"%byte; "G"%byte]; filename := "Sales.png" |}
              (snd (export_power_bi_report sales me "R1" "W1" PNG 10 None None world0)))
    as (w & id & w1 & items & w2 & location & status & json & _ & _ & Hs & Hl & _);
    [vm_compute; reflexivity|].
  exists items, location. split; [exact Hs|exact Hl].
Defined.

Lemma nothing_returned_without_timeout_witness :
  exists e w',
    export_power_bi_report stalled me "R1" "W1" PNG 0 None None world0 = (inl e, w') /\
    submissions (journal w') = 3%nat /\ fetches (journal w') = 0%nat.
Proof.
  destruct (nothing_returned_without_timeout stalled me "R1" "W1" PNG 0 None None world0)
    as (e & w' & Hrun & Hs & Hf); [lia|].
  exists e, w'. split; [exact Hrun|]. split; [exact Hs|exact Hf].
Defined.

Lemma last_attempt_sleeps_before_none_witness :
  for_attempts busy me "R1" "W1" PNG 10 None None (attempts_from (max_retries - 1)) world0
    = (inr None, slept busy 7 (polled busy 10)).
Proof.
  destruct (last_attempt_sleeps_before_none busy me "R1" "W1" PNG 10 None None
              world0 (PyStr "E1") (submitted busy)
              [("id", PyStr "E1"); ("status", PyStr "Failed"); ("retryAfter", PyInt 7)]
              7 (polled busy 10)) as (Hrun & _);
    [vm_compute; reflexivity ..|].
  exact Hrun.
Defined.

Lemma retry_after_not_a_number_witness :
  attempt_body odd me "R1" "W1" PNG 10 None None world0
    = (inl TypeError, polled odd 10).
Proof.
  destruct (retry_after_not_a_number odd me "R1" "W1" PNG 10 None None 0
              world0 (PyStr "E1") (submitted odd)
              [("id", PyStr "E1"); ("status", PyStr "Failed");
               ("retryAfter", PyStr "PT30S")]
              (PyStr "PT30S") (polled odd 10)) as (Hbody & _);
    [vm_compute; reflexivity ..|discriminate|discriminate|].
  exact Hbody.
Defined.

Lemma poll_returns_last_answer_witness :
  exists evs n t status content,
    journal (polled sales 10) = journal (submitted sales) ++ evs
      ++ [Ev n t (Get (export_status_url me "R1" "W1" (PyStr "E1")) (headers me))] /\
    result_of (respond sales n) = Http status (inr sales_snapshot) content /\
    status < 400.
Proof.
  apply (poll_returns_last_answer sales me "R1" "W1" (PyStr "E1") 10
           (submitted sales) sales_snapshot (polled sales 10)).
  - vm_compute. reflexivity.
  - discriminate.
Defined.

Lemma retry_after_beyond_float_witness :
  attempt_body eternal me "R1" "W1" PNG 10 None None world0
    = (inl OverflowError, polled eternal 10).
Proof.
  destruct (retry_after_beyond_float eternal me "R1" "W1" PNG 10 None None 0
              world0 (PyStr "E1") (submitted eternal)
              [("id", PyStr "E1"); ("status", PyStr "Failed");
               ("retryAfter", PyInt (2 ^ 1024))]
              (2 ^ 1024) (polled eternal 10)) as (Hbody & _).
  - vm_compute. reflexivity.
  - vm_compute. reflexivity.
  - reflexivity.
  - reflexivity.
  - vm_compute. discriminate.
  - exact Hbody.
Defined.
